(** * go-nats-go: message framing, generators and the master/slave handshake

    A shallow embedding of [main.go]: the raw message codec, the message
    generators, [readConfig], the master's publish loop and the slave's
    [.data] handler, followed by the properties of the specification that
    are settled on them.

    Conventions.
    - A [uint64] is a [Z] in [0, 2^64); arithmetic that can leave the range
      is wrapped with [wrap64].  A byte is a [Z] in [0, 256).
    - A Go slice is the list of its elements; a slice expression is checked
      against the length (capacity beyond the length is not modelled).
    - A Go run-time panic is [None] in the codec and the generators, and
      the [Panic] flow in the handler. *)

From Stdlib Require Import String Ascii DecimalString ZArith List Bool Lia
  Permutation.
Import ListNotations.
Local Open Scope Z_scope.

(** ** Go primitives *)

Module Go.

Definition byte := Z.
Definition uint64 := Z.

Definition wrap64 (x : Z) : uint64 := x mod 2 ^ 64.

(** [byte(x)]: conversion of an unsigned integer to a byte. *)
Definition to_byte (x : Z) : byte := x mod 256.

(** [[]byte(s)] for a string [s]. *)
Definition bytes_of_string (s : string) : list byte :=
  map (fun a => Z.of_N (N_of_ascii a)) (list_ascii_of_string s).

(** [make([]byte, n)]: [n] zero bytes. *)
Definition make (n : nat) : list byte := repeat 0 n.

(** [s[lo:hi]], [s[lo:]] and [s[:hi]]; [None] is the slice-bounds panic. *)
Definition slice (s : list byte) (lo hi : nat) : option (list byte) :=
  if (lo <=? hi)%nat && (hi <=? length s)%nat
  then Some (firstn (hi - lo) (skipn lo s))
  else None.

Definition slice_from (s : list byte) (lo : nat) : option (list byte) :=
  slice s lo (length s).

Definition slice_to (s : list byte) (hi : nat) : option (list byte) :=
  slice s 0 hi.

(** [copy(dst, src)]: the first [min (len dst) (len src)] elements of [dst]
    are overwritten; the result is the new content of [dst]. *)
Definition copy (dst src : list byte) : list byte :=
  firstn (length dst) src ++ skipn (length src) dst.

(** A write through the sub-slice [s[lo:hi]] is a write to [s]: run [f] on
    the window and put its result back in place. *)
Definition with_slice (s : list byte) (lo hi : nat)
    (f : list byte -> option (list byte)) : option (list byte) :=
  match slice s lo hi with
  | None => None
  | Some window =>
      match f window with
      | None => None
      | Some window' => Some (firstn lo s ++ window' ++ skipn hi s)
      end
  end.

(** [[]byte] compared with a string constant, as [string(b) == "..."]. *)
Fixpoint bytes_eqb (a b : list byte) : bool :=
  match a, b with
  | [], [] => true
  | x :: a', y :: b' => (x =? y) && bytes_eqb a' b'
  | _, _ => false
  end.

(** [k], [k + 1], ..., [n] values in all. *)
Fixpoint countsFrom (k : Z) (n : nat) : list Z :=
  match n with
  | O => []
  | S n' => k :: countsFrom (k + 1) n'
  end.

(** The values of [count] in [for count := 0; count < total; count++]. *)
Definition upto (total : Z) : list Z := countsFrom 0 (Z.to_nat total).

End Go.

(** ** encoding/binary: unsigned varints *)

Module binary.
Import Go.

(** [binary.PutUvarint(buf, x)]
<<
    i := 0
    for x >= 0x80 { buf[i] = byte(x) | 0x80; x >>= 7; i++ }
    buf[i] = byte(x)
    return i + 1
>>
    The loop writes [buf[0]], [buf[1]], ... in turn, so it is a recursion
    on the part of [buf] that is still to be written; running off the end
    of [buf] is the index-out-of-range panic. *)
Fixpoint PutUvarint (buf : list byte) (x : uint64) : option (list byte * Z) :=
  match buf with
  | [] => None
  | b0 :: rest =>
      if 128 <=? x then
        match PutUvarint rest (Z.shiftr x 7) with
        | Some (rest', n) => Some (Z.lor (to_byte x) 128 :: rest', n + 1)
        | None => None
        end
      else Some (to_byte x :: rest, 1)
  end.

Definition MaxVarintLen64 : Z := 10.

(** [binary.Uvarint(buf)]: the loop over [buf] with the running index [i],
    accumulator [x] and shift [s].
<<
    for i, b := range buf {
        if i == MaxVarintLen64 { return 0, -(i + 1) }
        if b < 0x80 {
            if i == MaxVarintLen64-1 && b > 1 { return 0, -(i + 1) }
            return x | uint64(b)<<s, i + 1
        }
        x |= uint64(b&0x7f) << s
        s += 7
    }
    return 0, 0
>> *)
Fixpoint Uvarint_from (buf : list byte) (i : Z) (x : uint64) (s : Z)
    : uint64 * Z :=
  match buf with
  | [] => (0, 0)
  | b :: rest =>
      if i =? MaxVarintLen64 then (0, - (i + 1))
      else if b <? 128 then
        if (i =? MaxVarintLen64 - 1) && (1 <? b) then (0, - (i + 1))
        else (Z.lor x (wrap64 (Z.shiftl b s)), i + 1)
      else
        Uvarint_from rest (i + 1)
          (Z.lor x (wrap64 (Z.shiftl (Z.land b 127) s))) (s + 7)
  end.

Definition Uvarint (buf : list byte) : uint64 * Z := Uvarint_from buf 0 0 0.

End binary.

(** ** The raw message and its payloads *)

Import Go.

Definition rawMessage := list byte.

(** The methods of [rawMessage]: [raw.messageType()], [raw.format()] and
    [raw.message()]; the tags are kept as byte strings. *)
Module raw.

Definition messageType (raw : rawMessage) : option (list byte) :=
  slice_to raw 4.

Definition format (raw : rawMessage) : option (list byte) :=
  slice raw 4 8.

Definition message (raw : rawMessage) : option (list byte) :=
  slice_from raw 8.

End raw.

Module byteMessage.

Definition count (bytes : list byte) : option uint64 :=
  match slice_to bytes 8 with
  | Some b => Some (fst (binary.Uvarint b))
  | None => None
  end.

Definition total (bytes : list byte) : option uint64 :=
  match slice bytes 8 16 with
  | Some b => Some (fst (binary.Uvarint b))
  | None => None
  end.

Definition data (bytes : list byte) : option (list byte) :=
  slice_from bytes 16.

End byteMessage.

(** [structMessage]; [D] is the type of the value held by [Data]. *)
Module structMessage.

Record t (D : Type) : Type := mk {
  Count : uint64;
  Total : uint64;
  Data : D
}.
Arguments mk {D} _ _ _.
Arguments Count {D} _.
Arguments Total {D} _.
Arguments Data {D} _.

Definition count {D} (msg : t D) : option uint64 := Some (Count msg).
Definition total {D} (msg : t D) : option uint64 := Some (Total msg).

End structMessage.

(** The [message] interface, as the sum of the two types that implement
    it; a method call dispatches on the dynamic type. *)
Inductive message (D : Type) : Type :=
| IsByteMessage (bytes : list byte)
| IsStructMessage (msg : structMessage.t D).
Arguments IsByteMessage {D} _.
Arguments IsStructMessage {D} _.

Definition count {D} (m : message D) : option uint64 :=
  match m with
  | IsByteMessage bytes => byteMessage.count bytes
  | IsStructMessage msg => structMessage.count msg
  end.

Definition total {D} (m : message D) : option uint64 :=
  match m with
  | IsByteMessage bytes => byteMessage.total bytes
  | IsStructMessage msg => structMessage.total msg
  end.

(** The tag of a message that has not been framed: [[]byte{0, 0, 0, 0}]. *)
Definition zeroTag : list byte := [0; 0; 0; 0].

(** ** Message generators *)

(** [rawMessageGenerator]: a call either returns a raw message or panics. *)
Definition rawMessageGenerator := uint64 -> uint64 -> option rawMessage.

(** The zero value of the function type: calling it panics. *)
Definition nilGenerator : rawMessageGenerator := fun _ _ => None.

(** [byteMessageFunc]: a message of [4+4+8+8+len(data)] zero bytes, the
    two counters written as varints through [msg[8:16]] and [msg[16:24]],
    the data copied from byte 24 on. *)
Definition byteMessageFunc (data : list byte) : rawMessageGenerator :=
  fun count total =>
    let msg := make (4 + 4 + 8 + 8 + length data) in
    match with_slice msg 8 16
            (fun b => option_map fst (binary.PutUvarint b count)) with
    | None => None
    | Some msg1 =>
        match with_slice msg1 16 24
                (fun b => option_map fst (binary.PutUvarint b total)) with
        | None => None
        | Some msg2 =>
            with_slice msg2 24 (length msg2) (fun b => Some (copy b data))
        end
    end.

(** [rawMessageFunc]: stamps the type and format tags over the first eight
    bytes of what the wrapped generator returns. *)
Definition rawMessageFunc (msgType format : list byte)
    (generateMessage : rawMessageGenerator) : rawMessageGenerator :=
  fun count total =>
    match generateMessage count total with
    | None => None
    | Some msg =>
        match with_slice msg 0 4 (fun b => Some (copy b msgType)) with
        | None => None
        | Some msg1 =>
            with_slice msg1 4 8 (fun b => Some (copy b format))
        end
    end.

(** ** Configuration *)

Module configuration.

Record t : Type := mk {
  Subject : string;
  Total : uint64;
  NATSServerURL : string;
  Timeout : Z;
  Scenario : string;
  AESEncryptionKey : string;
  NumBytes : Z;
  Filename : string
}.

Definition with_Subject (c : t) (v : string) : t :=
  mk v (Total c) (NATSServerURL c) (Timeout c) (Scenario c)
     (AESEncryptionKey c) (NumBytes c) (Filename c).

Definition with_NATSServerURL (c : t) (v : string) : t :=
  mk (Subject c) (Total c) v (Timeout c) (Scenario c)
     (AESEncryptionKey c) (NumBytes c) (Filename c).

End configuration.

(** [metric], the record sent back on the [.metric] subject. *)
Module metric.

Record t : Type := mk {
  Job : string;
  Time : Z;
  Count : uint64
}.

End metric.

(** An error value: its message. *)
Definition error := string.

Definition nats_DefaultURL : string := "nats://127.0.0.1:4222".

(** What a call of the program does to the connection and to the
    generator, in order. *)
Inductive event : Type :=
| Generated (count total : uint64)
| Published (subject : string) (msg : rawMessage).

Inductive exit : Type := Normal | Panics.

(** Control flow inside the [.data] handler: go on with a value, [return]
    early, or panic. *)
Inductive flow (A : Type) : Type :=
| Next (a : A)
| Return
| Panic.
Arguments Next {A} _.
Arguments Return {A}.
Arguments Panic {A}.

Definition bind {A B} (c : flow A) (k : A -> flow B) : flow B :=
  match c with
  | Next a => k a
  | Return => Return
  | Panic => Panic
  end.

(** A call that may panic. *)
Definition call {A} (r : option A) : flow A :=
  match r with
  | Some a => Next a
  | None => Panic
  end.

(** A call whose error makes the handler return. *)
Definition or_return {A} (r : option A) : flow A :=
  match r with
  | Some a => Next a
  | None => Return
  end.

(** A message published on [.metric]: the subject and the marshalled
    [metric], kept as the record. *)
Definition publication : Type := string * metric.t.

(** The program, over its external collaborators. *)
Section Program.

Notation "'do' x <- c ;; k" := (bind c (fun x => k))
  (at level 10, x name, c at level 100, k at level 200).

Context {D : Type}.

(** [encoding/json] on [structMessage]; [None] is a non-nil error. *)
Variable json_Marshal : structMessage.t D -> list byte.
Variable json_Unmarshal : list byte -> option (structMessage.t D).

(** [easycrypt.Encrypt] and [easycrypt.Decrypt]; [None] is a non-nil error,
    which both return together with an empty byte slice.  The nonce drawn
    by [Encrypt] is part of the function. *)
Variable Encrypt : list byte -> string -> option (list byte).
Variable Decrypt : list byte -> string -> option (list byte).

(** [gonfig.GetConf] and [ioutil.ReadFile]; [None] is a non-nil error. *)
Variable GetConf : string -> option configuration.t.
Variable ReadFile : string -> option (list byte).

(** The value of [fillBigStruct()]. *)
Variable myStruct : D.

Definition structMessageFunc (v : D) : rawMessageGenerator :=
  fun count total =>
    let myStruct := structMessage.mk count total v in
    let msgBody := json_Marshal myStruct in
    let msg := make (4 + 4 + length msgBody) in
    with_slice msg 8 (length msg) (fun b => Some (copy b msgBody)).

Definition encryptedMessageFunc (generateMessage : rawMessageGenerator)
    (key : string) : rawMessageGenerator :=
  fun count total =>
    match generateMessage count total with
    | None => None
    | Some msg =>
        match slice_from msg 8 with
        | None => None
        | Some body =>
            let encryptedBody :=
              match Encrypt body key with
              | Some b => b
              | None => []
              end in
            let encryptedMessage := make (8 + length encryptedBody) in
            with_slice encryptedMessage 8 (length encryptedMessage)
              (fun b => Some (copy b encryptedBody))
        end
    end.

(** [readConfig]: the configuration it leaves in [*config], or the error,
    kept as the message that [readConfig] gives it. *)
Definition readConfig (fileName : string) : configuration.t + error :=
  match GetConf fileName with
  | None => inr "config: gonfig.getconf issue"%string
  | Some config =>
      if negb (String.length (configuration.AESEncryptionKey config) =? 32)%nat
      then inr "config: len(config.AESEncryptionKey) != 32"%string
      else
        let config :=
          if String.eqb (configuration.Subject config) ""
          then configuration.with_Subject config "speedtestnats"
          else config in
        let config :=
          if String.eqb (configuration.NATSServerURL config) ""
          then configuration.with_NATSServerURL config nats_DefaultURL
          else config in
        inl config
  end.

(** The scenario switch of [main]; [None] is the return of [main] after a
    file that cannot be read.  No case matches an unknown scenario, which
    leaves the nil generator. *)
Definition selectScenario (config : configuration.t)
    : option rawMessageGenerator :=
  let scenario := configuration.Scenario config in
  let key := configuration.AESEncryptionKey config in
  if String.eqb scenario "json" then
    Some (rawMessageFunc (bytes_of_string "json") (bytes_of_string "byte")
            (structMessageFunc myStruct))
  else if String.eqb scenario "json.encrypted" then
    Some (rawMessageFunc (bytes_of_string "json") (bytes_of_string "encr")
            (encryptedMessageFunc (structMessageFunc myStruct) key))
  else if String.eqb scenario "emptybytes" then
    let data := make (Z.to_nat (configuration.NumBytes config)) in
    Some (rawMessageFunc (bytes_of_string "byte") (bytes_of_string "byte")
            (byteMessageFunc data))
  else if String.eqb scenario "file" then
    match ReadFile (configuration.Filename config) with
    | None => None
    | Some data =>
        Some (rawMessageFunc (bytes_of_string "byte") (bytes_of_string "byte")
                (byteMessageFunc data))
    end
  else if String.eqb scenario "file.encrypted" then
    match ReadFile (configuration.Filename config) with
    | None => None
    | Some data =>
        Some (rawMessageFunc (bytes_of_string "byte") (bytes_of_string "encr")
                (encryptedMessageFunc (byteMessageFunc data) key))
    end
  else Some nilGenerator.

(** How far [main] gets: it returns before the services are set up, or it
    runs as master with its configuration and generator, or as slave. *)
Inductive service : Type :=
| Exited (err : error)
| Master (config : configuration.t) (generateMessage : rawMessageGenerator)
| Slave (config : configuration.t).

(** [main] up to the services: the configuration, then the scenario.  The
    context, the logger and the connection play no part in what is
    generated and published. *)
Definition main (configFile : string) (slave : bool) : service :=
  match readConfig configFile with
  | inr err => Exited err
  | inl config =>
      match selectScenario config with
      | None => Exited "Unable to read file"%string
      | Some generateMessageFunction =>
          if slave then Slave config
          else Master config generateMessageFunction
      end
  end.

(** *** Master: the publish loop

    [for ; count < config.Total; count++ { msg := generateMessage(count,
    config.Total); nc.Publish(subject, msg) }], with one unit of [fuel] per
    test of the loop condition; [None] is fuel exhausted.  A panic of the
    generator ends the run. *)
Fixpoint publishLoop (fuel : nat) (generateMessage : rawMessageGenerator)
    (subject : string) (Total : uint64) (count : uint64)
    : option (list event * exit) :=
  match fuel with
  | O => None
  | S fuel' =>
      if count <? Total then
        match generateMessage count Total with
        | None => Some ([Generated count Total], Panics)
        | Some msg =>
            match publishLoop fuel' generateMessage subject Total
                    (wrap64 (count + 1)) with
            | None => None
            | Some (evs, e) =>
                Some (Generated count Total :: Published subject msg :: evs, e)
            end
        end
      else Some ([], Normal)
  end.

(** One turn of the loop when the generator returns [g count]: the call
    and the publication. *)
Definition turn (subject : string) (Total : uint64)
    (g : uint64 -> rawMessage) (count : uint64) : list event :=
  [Generated count Total; Published subject (g count)].

(** What the process does on the [.data] subject when started as master on
    [configFile]: nothing when [main] returns early. *)
Definition masterPublishes (fuel : nat) (configFile : string)
    : option (list event * exit) :=
  match main configFile false with
  | Master config generateMessage =>
      publishLoop fuel generateMessage
        (configuration.Subject config ++ ".data")
        (configuration.Total config) 0
  | _ => Some ([], Normal)
  end.

(** *** Slave: the [.data] handler *)

Section Handler.

Variable config : configuration.t.

(** Lines 350-359: the message body, decrypted when the format is
    ["encr"]; a body that cannot be decrypted makes the handler return. *)
Definition decryptBody (data : rawMessage) : flow (list byte) :=
  do msgBytes <- call (raw.message data) ;;
  do fmt <- call (raw.format data) ;;
  if bytes_eqb fmt (bytes_of_string "encr") then
    or_return (Decrypt msgBytes (configuration.AESEncryptionKey config))
  else if bytes_eqb fmt (bytes_of_string "byte") then Next msgBytes
  else Next msgBytes.

(** Lines 361-375: the body read as the message type says; a body that
    cannot be unmarshalled makes the handler return. *)
Definition decodeBody (data : rawMessage) (msgBytes : list byte)
    : flow (message D) :=
  do ty <- call (raw.messageType data) ;;
  if bytes_eqb ty (bytes_of_string "byte") then
    Next (IsByteMessage msgBytes)
  else if bytes_eqb ty (bytes_of_string "json") then
    do tmpStruct <- or_return (json_Unmarshal msgBytes) ;;
    Next (IsStructMessage tmpStruct)
  else Next (IsByteMessage msgBytes).

Definition receive (data : rawMessage) : flow (message D) :=
  do msgBytes <- decryptBody data ;;
  decodeBody data msgBytes.

(** Lines 388-389: the metric of a completed job, as published on
    [.metric]. *)
Definition received (now : Z) (total : uint64) : publication :=
  ((configuration.Subject config ++ ".metric")%string,
   metric.mk "received" now total).

(** The body of the handler, from [receivedCounter]: the value it leaves in
    [receivedCounter] and what it publishes.  Every early return and every
    panic comes before the first write, so neither carries a state.
    [count()] and [total()] are pure: the second calls of line 386 give the
    values of the first. *)
Definition handlerBody (now : Z) (data : rawMessage)
    (receivedCounter : uint64) : flow (uint64 * list publication) :=
  do receivedMessage <- receive data ;;
  do t <- call (total receivedMessage) ;;
  if t =? 0 then Return
  else
    do c <- call (count receivedMessage) ;;
    let receivedCounter := if c =? 0 then 0 else receivedCounter in
    if (c =? wrap64 (t - 1)) && (receivedCounter =? wrap64 (t - 1)) then
      Next (receivedCounter, [received now t])
    else Next (receivedCounter, []).

(** The handler: the body, then the deferred [receivedCounter++], which
    runs on every way out of the body, a panic included. *)
Definition handler (now : Z) (data : rawMessage) (receivedCounter : uint64)
    : exit * uint64 * list publication :=
  match handlerBody now data receivedCounter with
  | Next (receivedCounter', out) =>
      (Normal, wrap64 (receivedCounter' + 1), out)
  | Return => (Normal, wrap64 (receivedCounter + 1), [])
  | Panic => (Panics, wrap64 (receivedCounter + 1), [])
  end.

(** A delivery: the time at which the handler runs and the bytes of the
    message. *)
Definition delivery : Type := Z * rawMessage.

(** The handler run on the deliveries in turn: what each invocation
    published.  A panic ends the process. *)
Fixpoint run (ds : list delivery) (receivedCounter : uint64)
    : list (list publication) :=
  match ds with
  | [] => []
  | (now, data) :: rest =>
      match handler now data receivedCounter with
      | (Normal, receivedCounter', out) => out :: run rest receivedCounter'
      | (Panics, _, out) => [out]
      end
  end.

(** [total()] and [count()] of a delivered message, when the handler gets
    to read them. *)
Definition deliveredTotal (data : rawMessage) : option uint64 :=
  match receive data with
  | Next m => total m
  | _ => None
  end.

Definition deliveredCount (data : rawMessage) : option uint64 :=
  match receive data with
  | Next m => count m
  | _ => None
  end.

(** The same run, seen from the process: how it ended and the value left
    in [receivedCounter]. *)
Fixpoint runOutcome (ds : list delivery) (receivedCounter : uint64)
    : exit * uint64 :=
  match ds with
  | [] => (Normal, receivedCounter)
  | (now, data) :: rest =>
      match handler now data receivedCounter with
      | (Normal, receivedCounter', _) => runOutcome rest receivedCounter'
      | (Panics, receivedCounter', _) => (Panics, receivedCounter')
      end
  end.

End Handler.

End Program.

(** ** time: the difference of two instants

    A [time.Time] is kept as its instant in nanoseconds and a
    [time.Duration] is an [int64] of nanoseconds.  [t.Sub(u)], for two
    times that do not both carry a monotonic reading (the time of a metric
    comes out of [json.Unmarshal] and carries none):
<<
    d := Duration(t.sec()-u.sec())*Second + Duration(t.nsec()-u.nsec())
    switch {
    case u.Add(d).Equal(t): return d
    case t.Before(u):       return minDuration
    default:                return maxDuration
    }
>>
    [d] is computed in [int64] and wraps; it is returned when it is the
    difference, and the result sticks at the ends of the range
    otherwise. *)
Module time.

Definition minDuration : Z := - 2 ^ 63.
Definition maxDuration : Z := 2 ^ 63 - 1.

(** An [int64] computed from [x], with its wrap-around. *)
Definition wrapInt64 (x : Z) : Z := (x + 2 ^ 63) mod 2 ^ 64 - 2 ^ 63.

Definition Sub (t u : Z) : Z :=
  let d := wrapInt64 (t - u) in
  if u + d =? t then d
  else if t <? u then minDuration
  else maxDuration.

End time.

(** *** Master: the [.metric] handler

    Lines 327-336, on the metric [m] that [json.Unmarshal] leaves: when
    the job and the count are the awaited ones, the duration
    [m.Time.Sub(base.Time)] stored in [totalDuration] before the signal on
    [fc]; [None] when nothing is done. *)
Definition metricHandler (config : configuration.t) (base m : metric.t)
    : option Z :=
  if String.eqb (metric.Job m) "received"
     && (metric.Count m =? configuration.Total config)
  then Some (time.Sub (metric.Time m) (metric.Time base))
  else None.

(** The messages handed to [nc.Publish], in order. *)
Fixpoint publishedMessages (evs : list event) : list rawMessage :=
  match evs with
  | [] => []
  | Generated _ _ :: rest => publishedMessages rest
  | Published _ msg :: rest => msg :: publishedMessages rest
  end.

(** ** pkg/easycrypt

    [Encrypt] and [Decrypt] over the primitives of [crypto/aes],
    [crypto/cipher] and [crypto/rand].  Both return the bytes and the
    error, [None] for the nil error; the outer [None] is a panic.  An
    error made by [errors.Wrap] is kept as the message that [Wrap] is
    given, without the text of its cause. *)
Module easycrypt.

Section Cipher.

Variables Block AEAD : Type.

(** [aes.NewCipher] and [cipher.NewGCM]; [None] is a non-nil error. *)
Variable aes_NewCipher : list byte -> option Block.
Variable cipher_NewGCM : Block -> option AEAD.
Variable NonceSize : AEAD -> nat.

(** What [gcm.Seal(dst, nonce, plaintext, nil)] appends to [dst], and
    [gcm.Open(nil, nonce, ciphertext, nil)], [None] for an error. *)
Variable seal : AEAD -> list byte -> list byte -> list byte.
Variable open : AEAD -> list byte -> list byte -> option (list byte).

(** The bytes that [rand.Reader] gives to a read of [n] bytes; [None] is
    an error of [io.ReadFull]. *)
Variable rand_Reader : nat -> option (list byte).

Definition Encrypt (bytes : list byte) (key : string)
    : option (list byte * option error) :=
  match aes_NewCipher (bytes_of_string key) with
  | None => Some ([], Some "easycrypt: New cipher issue"%string)
  | Some c =>
      match cipher_NewGCM c with
      | None => Some ([], Some "easycrypt: cipher.NewGCM issue"%string)
      | Some gcm =>
          let nonce := make (NonceSize gcm) in
          match rand_Reader (length nonce) with
          | None => Some ([], Some "easycrypt: Nonce issue"%string)
          | Some random =>
              let nonce := copy nonce random in
              Some (nonce ++ seal gcm nonce bytes, None)
          end
      end
  end.

(** [fmt.Sprintf("easycrypt: Nonce issue: len(bytes)(%v) < nonceSize(%v)",
    len(bytes), nonceSize)], the two lengths in decimal. *)
Definition nonceIssue (len nonceSize : nat) : error :=
  ("easycrypt: Nonce issue: len(bytes)("
   ++ NilEmpty.string_of_uint (Nat.to_uint len)
   ++ ") < nonceSize("
   ++ NilEmpty.string_of_uint (Nat.to_uint nonceSize)
   ++ ")")%string.

Definition Decrypt (bytes : list byte) (key : string)
    : option (list byte * option error) :=
  match aes_NewCipher (bytes_of_string key) with
  | None => Some ([], Some "easycrypt: New cipher issue"%string)
  | Some c =>
      match cipher_NewGCM c with
      | None => Some ([], Some "easycrypt: cipher.NewGCM issue"%string)
      | Some gcm =>
          let nonceSize := NonceSize gcm in
          if (length bytes <? nonceSize)%nat then
            Some ([], Some (nonceIssue (length bytes) nonceSize))
          else
            match slice_to bytes nonceSize, slice_from bytes nonceSize with
            | Some nonce, Some bytes =>
                match open gcm nonce bytes with
                | None => Some ([], Some "easycrypt: gcm.Open issue"%string)
                | Some plain => Some (plain, None)
                end
            | _, _ => None
            end
      end
  end.

End Cipher.

(** The two functions as the program uses them: the bytes when the error
    is nil. *)
Definition result (r : option (list byte * option error))
    : option (list byte) :=
  match r with
  | Some (bytes, None) => Some bytes
  | _ => None
  end.

End easycrypt.

(** ** Sample values

    A configuration as in the README, collaborators that always fail, and
    the messages of the ["emptybytes"]-like generator, for evaluating the
    program on concrete inputs. *)

Module Sample.

Definition config : configuration.t :=
  configuration.mk "go-nats-go" 3 "nats://localhost:4222" 1000000000000
    "emptybytes" "DontUseARealKey.ItHasToBe32Bytes" 2 "bytes.txt".

Definition shortKeyConfig : configuration.t :=
  configuration.mk "go-nats-go" 3 "nats://localhost:4222" 1000000000000
    "emptybytes" "TooShort" 2 "bytes.txt".

Definition json_Unmarshal (b : list byte) : option (structMessage.t unit) :=
  None.

Definition Decrypt (b : list byte) (key : string) : option (list byte) :=
  None.

Definition Encrypt (b : list byte) (key : string) : option (list byte) :=
  None.

Definition json_Marshal (m : structMessage.t unit) : list byte := [].

Definition ReadFile (name : string) : option (list byte) := None.

Definition generator : rawMessageGenerator :=
  rawMessageFunc (bytes_of_string "byte") (bytes_of_string "byte")
    (byteMessageFunc (make 2)).

(** The message of the generator for [(count, total)], empty if the call
    panics. *)
Definition generated (count total : uint64) : rawMessage :=
  match generator count total with
  | Some msg => msg
  | None => []
  end.

(** A decryption that succeeds, and the handler over it. *)
Definition DecryptAny (b : list byte) (key : string) : option (list byte) :=
  Some (rev b).

Definition handlerDecryptAny := handler json_Unmarshal DecryptAny config.

Definition handler := handler json_Unmarshal Decrypt config.
Definition run := run json_Unmarshal Decrypt config.
Definition deliveredCount := deliveredCount json_Unmarshal Decrypt config.
Definition deliveredTotal := deliveredTotal json_Unmarshal Decrypt config.

(** A generator that returns no bytes at all. *)
Definition emptyGenerator : rawMessageGenerator := fun _ _ => Some [].

End Sample.

(** A stand-in for AES-GCM with the interface of [easycrypt]: keys of 16,
    24 or 32 bytes, a nonce of 12 bytes, a seal that reverses the plaintext
    and ends it with a one-byte tag. *)
Module SampleCipher.

Definition NewCipher (key : list byte) : option (list byte) :=
  if ((length key =? 16) || (length key =? 24) || (length key =? 32))%nat
  then Some key else None.

Definition NewGCM (c : list byte) : option (list byte) := Some c.

Definition NonceSize (gcm : list byte) : nat := 12.

Definition seal (gcm nonce plaintext : list byte) : list byte :=
  rev plaintext ++ [42].

Definition open (gcm nonce ciphertext : list byte) : option (list byte) :=
  match rev ciphertext with
  | 42 :: plaintext => Some plaintext
  | _ => None
  end.

Definition rand_Reader (n : nat) : option (list byte) := Some (repeat 7 n).

Definition Encrypt (bytes : list byte) (key : string) : option (list byte) :=
  easycrypt.result
    (easycrypt.Encrypt _ _ NewCipher NewGCM NonceSize seal rand_Reader
       bytes key).

Definition Decrypt (bytes : list byte) (key : string) : option (list byte) :=
  easycrypt.result
    (easycrypt.Decrypt _ _ NewCipher NewGCM NonceSize open bytes key).

End SampleCipher.

(** Collaborators that succeed: a JSON of two numbers for a struct message
    without data, and an encryption that reverses the bytes, undone by
    [Sample.DecryptAny]. *)
Module SampleCodec.

Definition json_Marshal (m : structMessage.t unit) : list byte :=
  [structMessage.Count m; structMessage.Total m].

Definition json_Unmarshal (b : list byte) : option (structMessage.t unit) :=
  match b with
  | [c; t] => Some (structMessage.mk c t tt)
  | _ => None
  end.

Definition EncryptAny (b : list byte) (key : string) : option (list byte) :=
  Some (rev b).

(** Configurations: one as loaded from a file that names no subject, no
    server and no scenario, one with a total of [2^56], one for the
    encrypted JSON scenario. *)
Definition bareConfig : configuration.t :=
  configuration.mk "" 3 "" 1000000000000
    "" "DontUseARealKey.ItHasToBe32Bytes" 2 "".

Definition hugeTotalConfig : configuration.t :=
  configuration.mk "go-nats-go" (2 ^ 56) "nats://localhost:4222" 1000000000000
    "emptybytes" "DontUseARealKey.ItHasToBe32Bytes" 0 "bytes.txt".

Definition jsonConfig : configuration.t :=
  configuration.mk "go-nats-go" 2 "nats://localhost:4222" 1000000000000
    "json.encrypted" "DontUseARealKey.ItHasToBe32Bytes" 0 "bytes.txt".

(** A generator that returns on the counts 0 and 1 and panics from 2 on. *)
Definition failingGenerator : rawMessageGenerator :=
  fun count total => if count <? 2 then Some [count; total] else None.

End SampleCodec.

(** * Properties *)

(** ** Unsigned varints *)

Module VarintFacts.
Import binary.

Lemma wrap64_small (x : Z) : 0 <= x < 2 ^ 64 -> wrap64 x = x.
Proof. intros H. unfold wrap64. now apply Z.mod_small. Qed.

(** The byte written by a step of the loop has its top bit set ... *)
Lemma continuation_byte_ge (x : Z) : 128 <= Z.lor (to_byte x) 128.
Proof.
  unfold to_byte.
  assert (Hr : 0 <= x mod 256 < 256) by (apply Z.mod_pos_bound; lia).
  assert (Hn : 0 <= Z.lor (x mod 256) 128) by (apply Z.lor_nonneg; lia).
  destruct (Z_lt_le_dec (Z.lor (x mod 256) 128) 128) as [Hlt | Hge]; [| exact Hge].
  exfalso.
  assert (Hb : Z.testbit (Z.lor (x mod 256) 128) 7 = true).
  { rewrite Z.lor_spec. change 128 with (2 ^ 7).
    rewrite Z.pow2_bits_true by lia. apply orb_true_r. }
  rewrite <- (Z.mod_small (Z.lor (x mod 256) 128) (2 ^ 7)) in Hb
    by (change (2 ^ 7) with 128; lia).
  rewrite Z.mod_pow2_bits_high in Hb by lia. discriminate.
Qed.

(** ... and carries the low seven bits of [x]. *)
Lemma continuation_byte_low (x : Z) :
  Z.land (Z.lor (to_byte x) 128) 127 = x mod 2 ^ 7.
Proof.
  unfold to_byte. change 127 with (Z.ones 7). rewrite Z.land_ones by lia.
  apply Z.bits_inj'. intros n Hn.
  rewrite !Z.testbit_mod_pow2 by lia.
  destruct (n <? 7) eqn:E; [| reflexivity]. apply Z.ltb_lt in E.
  cbn [andb]. rewrite Z.lor_spec. change 256 with (2 ^ 8). change 128 with (2 ^ 7).
  rewrite Z.testbit_mod_pow2 by lia.
  rewrite Z.pow2_bits_false by lia.
  replace (n <? 8) with true by (symmetry; apply Z.ltb_lt; lia).
  now rewrite orb_false_r.
Qed.

(** Seven bits at shift [s], then the rest at shift [s + 7]. *)
Lemma shift_split (x s : Z) : 0 <= s ->
  Z.lor (Z.shiftl (x mod 2 ^ 7) s) (Z.shiftl (Z.shiftr x 7) (s + 7))
  = Z.shiftl x s.
Proof.
  intros Hs. apply Z.bits_inj'. intros n Hn.
  rewrite Z.lor_spec, !Z.shiftl_spec by lia.
  destruct (Z_lt_le_dec (n - s) 7) as [Hlo | Hhi].
  - rewrite (Z.testbit_neg_r _ (n - (s + 7))) by lia. rewrite orb_false_r.
    destruct (Z_lt_le_dec (n - s) 0) as [Hneg | Hpos].
    + now rewrite !Z.testbit_neg_r by lia.
    + now rewrite Z.mod_pow2_bits_low by lia.
  - rewrite Z.mod_pow2_bits_high by lia. cbn [orb].
    rewrite Z.shiftr_spec by lia. f_equal. lia.
Qed.

Lemma shiftr7_bound (x s : Z) : 0 <= x -> 0 <= s ->
  x * 2 ^ s < 2 ^ 64 -> Z.shiftr x 7 * 2 ^ (s + 7) < 2 ^ 64.
Proof.
  intros Hx Hs Hb. rewrite Z.shiftr_div_pow2 by lia.
  rewrite Z.pow_add_r by lia.
  assert (H7 : x / 2 ^ 7 * 2 ^ 7 <= x).
  { rewrite Z.mul_comm. apply Z.mul_div_le. lia. }
  assert (Hp : 0 < 2 ^ s) by (apply Z.pow_pos_nonneg; lia).
  nia.
Qed.

Lemma low7_bound (x s : Z) : 0 <= x -> 0 <= s ->
  x * 2 ^ s < 2 ^ 64 -> 0 <= Z.shiftl (x mod 2 ^ 7) s < 2 ^ 64.
Proof.
  intros Hx Hs Hb. rewrite Z.shiftl_mul_pow2 by lia.
  assert (Hm : 0 <= x mod 2 ^ 7 <= x).
  { split; [apply Z.mod_pos_bound; lia | apply Z.mod_le; lia]. }
  assert (Hp : 0 < 2 ^ s) by (apply Z.pow_pos_nonneg; lia).
  nia.
Qed.

Lemma PutUvarint_count (buf : list byte) :
  forall x buf' n, PutUvarint buf x = Some (buf', n) ->
    1 <= n <= Z.of_nat (length buf) /\ length buf' = length buf.
Proof.
  induction buf as [| b0 rest IH]; intros x buf' n Hput;
    cbn [PutUvarint] in Hput; [discriminate |].
  destruct (128 <=? x).
  - destruct (PutUvarint rest (Z.shiftr x 7)) as [[rest' m] |] eqn:Hrec;
      [| discriminate].
    injection Hput as <- <-. destruct (IH _ _ _ Hrec) as [Hm Hl].
    cbn [length]. rewrite Hl. lia.
  - injection Hput as <- <-. cbn [length]. lia.
Qed.

(** Decoding what [PutUvarint] wrote, from any point of the loop of
    [Uvarint] that leaves room for it. *)
Lemma Uvarint_from_PutUvarint (buf : list byte) :
  forall x buf' n, 0 <= x -> PutUvarint buf x = Some (buf', n) ->
  forall i acc s, 0 <= i -> i + n <= 9 -> 0 <= s -> x * 2 ^ s < 2 ^ 64 ->
    Uvarint_from buf' i acc s = (Z.lor acc (Z.shiftl x s), i + n).
Proof.
  induction buf as [| b0 rest IH]; intros x buf' n Hx Hput i acc s Hi Hin Hs Hb;
    cbn [PutUvarint] in Hput; [discriminate |].
  destruct (128 <=? x) eqn:E.
  - apply Z.leb_le in E.
    destruct (PutUvarint rest (Z.shiftr x 7)) as [[rest' m] |] eqn:Hrec;
      [| discriminate].
    injection Hput as <- <-.
    assert (Hx7 : 0 <= Z.shiftr x 7) by (apply Z.shiftr_nonneg; lia).
    destruct (PutUvarint_count _ _ _ _ Hrec) as [Hm _].
    cbn [Uvarint_from]. unfold MaxVarintLen64.
    replace (i =? 10) with false by (symmetry; apply Z.eqb_neq; lia).
    pose proof (continuation_byte_ge x) as Hge.
    replace (Z.lor (to_byte x) 128 <? 128) with false
      by (symmetry; apply Z.ltb_ge; lia).
    rewrite continuation_byte_low.
    rewrite wrap64_small by (apply low7_bound; lia).
    rewrite (IH _ _ _ Hx7 Hrec) by (try lia; apply shiftr7_bound; lia).
    rewrite <- Z.lor_assoc, shift_split by lia.
    f_equal. lia.
  - apply Z.leb_gt in E. injection Hput as <- <-.
    cbn [Uvarint_from]. unfold MaxVarintLen64, to_byte.
    rewrite (Z.mod_small x 256) by lia.
    replace (i =? 10) with false by (symmetry; apply Z.eqb_neq; lia).
    replace (x <? 128) with true by (symmetry; apply Z.ltb_lt; lia).
    replace (i =? 10 - 1) with false by (symmetry; apply Z.eqb_neq; lia).
    cbn [andb]. rewrite wrap64_small; [reflexivity |].
    rewrite Z.shiftl_mul_pow2 by lia.
    assert (Hp : 0 < 2 ^ s) by (apply Z.pow_pos_nonneg; lia). nia.
Qed.

(** [PutUvarint] fits [x] in [buf] exactly when [x] has at most seven bits
    per byte of [buf]. *)
Lemma PutUvarint_fits (buf : list byte) :
  forall x, buf <> [] -> 0 <= x < 2 ^ (7 * Z.of_nat (length buf)) ->
    exists buf' n, PutUvarint buf x = Some (buf', n).
Proof.
  induction buf as [| b0 rest IH]; intros x Hne Hx; [congruence |].
  cbn [PutUvarint]. destruct (128 <=? x) eqn:E; [| eauto].
  apply Z.leb_le in E.
  assert (Hrest : rest <> []).
  { intros ->. cbn in Hx. lia. }
  destruct (IH (Z.shiftr x 7) Hrest) as (rest' & m & Hrec).
  - rewrite Z.shiftr_div_pow2 by lia. split; [apply Z.div_pos; lia |].
    apply Z.div_lt_upper_bound; [lia |].
    rewrite <- Z.pow_add_r by lia.
    replace (7 + 7 * Z.of_nat (length rest))
      with (7 * Z.of_nat (length (b0 :: rest))) by (cbn [length]; lia).
    lia.
  - rewrite Hrec. eauto.
Qed.

Lemma PutUvarint_overflows (buf : list byte) :
  forall x, 2 ^ (7 * Z.of_nat (length buf)) <= x -> PutUvarint buf x = None.
Proof.
  induction buf as [| b0 rest IH]; intros x Hx; [reflexivity |].
  cbn [PutUvarint].
  assert (Hp : 2 ^ 7 <= 2 ^ (7 * Z.of_nat (length (b0 :: rest)))).
  { apply Z.pow_le_mono_r; cbn [length]; lia. }
  replace (128 <=? x) with true
    by (symmetry; apply Z.leb_le; change 128 with (2 ^ 7); lia).
  rewrite IH; [reflexivity |].
  rewrite Z.shiftr_div_pow2 by lia. apply Z.div_le_lower_bound; [lia |].
  rewrite <- Z.pow_add_r by lia.
  replace (7 + 7 * Z.of_nat (length rest))
    with (7 * Z.of_nat (length (b0 :: rest))) by (cbn [length]; lia).
  exact Hx.
Qed.

(** Eight bytes hold any value below [2^56], and [Uvarint] reads it back. *)
Lemma Uvarint_PutUvarint_8 (buf : list byte) (x : Z) :
  length buf = 8%nat -> 0 <= x < 2 ^ 56 ->
  exists buf' n, PutUvarint buf x = Some (buf', n) /\
    length buf' = 8%nat /\ fst (Uvarint buf') = x.
Proof.
  intros Hl Hx.
  destruct (PutUvarint_fits buf x) as (buf' & n & Hput).
  { intros ->. discriminate. }
  { rewrite Hl. exact Hx. }
  destruct (PutUvarint_count _ _ _ _ Hput) as [Hn Hl'].
  exists buf', n. split; [exact Hput |]. split; [congruence |].
  unfold Uvarint.
  rewrite (Uvarint_from_PutUvarint _ _ _ _ (proj1 Hx) Hput) by lia.
  cbn [fst]. rewrite Z.shiftl_0_r. reflexivity.
Qed.

End VarintFacts.

(** ** The generators *)

Module GeneratorFacts.
Import binary VarintFacts.

Lemma copy_same_length (dst src : list byte) :
  length dst = length src -> copy dst src = src.
Proof.
  intros H. unfold copy. rewrite H, firstn_all, <- H, skipn_all.
  apply app_nil_r.
Qed.

Lemma slice_from_app (a b : list byte) (lo : nat) :
  lo = length a -> slice_from (a ++ b) lo = Some b.
Proof.
  intros ->. unfold slice_from, slice.
  rewrite Nat.leb_refl, andb_true_r.
  replace (length a <=? length (a ++ b))%nat with true
    by (symmetry; apply Nat.leb_le; rewrite length_app; lia).
  rewrite skipn_app, skipn_all, Nat.sub_diag. cbn [skipn app].
  rewrite firstn_all2; [reflexivity |]. rewrite length_app. lia.
Qed.

Lemma slice_app (a w b : list byte) (lo hi : nat) :
  lo = length a -> hi = (lo + length w)%nat ->
  slice (a ++ w ++ b) lo hi = Some w.
Proof.
  intros -> ->. unfold slice.
  replace (length a <=? length a + length w)%nat with true
    by (symmetry; apply Nat.leb_le; lia).
  replace (length a + length w <=? length (a ++ w ++ b))%nat with true
    by (symmetry; apply Nat.leb_le; rewrite !length_app; lia).
  cbn [andb]. f_equal.
  rewrite skipn_app, skipn_all, Nat.sub_diag. cbn [skipn app].
  replace (length a + length w - length a)%nat with (length w) by lia.
  rewrite firstn_app, firstn_all, Nat.sub_diag. cbn [firstn].
  apply app_nil_r.
Qed.

Lemma with_slice_app (a w b : list byte) (lo hi : nat)
    (f : list byte -> option (list byte)) :
  lo = length a -> hi = (lo + length w)%nat ->
  with_slice (a ++ w ++ b) lo hi f =
  match f w with
  | Some w' => Some (a ++ w' ++ b)
  | None => None
  end.
Proof.
  intros Hlo Hhi. unfold with_slice. rewrite (slice_app a w b lo hi Hlo Hhi).
  destruct (f w) as [w' |]; [| reflexivity]. subst lo hi. f_equal.
  rewrite firstn_app, firstn_all, Nat.sub_diag. cbn [firstn].
  rewrite app_nil_r. f_equal. f_equal.
  rewrite skipn_app, skipn_all2 by lia. cbn [app].
  replace (length a + length w - length a)%nat with (length w) by lia.
  rewrite skipn_app, skipn_all, Nat.sub_diag. reflexivity.
Qed.

(** What [byteMessageFunc] builds: eight bytes left for the tags, the two
    counters in eight bytes each, the data. *)
Lemma byteMessageFunc_layout (data : list byte) (count total : uint64) :
  byteMessageFunc data count total =
  match PutUvarint (make 8) count, PutUvarint (make 8) total with
  | Some (c, _), Some (t, _) => Some (make 8 ++ c ++ t ++ data)
  | _, _ => None
  end.
Proof.
  unfold byteMessageFunc.
  replace (make (4 + 4 + 8 + 8 + length data))
    with (make 8 ++ make 8 ++ make 8 ++ make (length data))
    by (unfold make; rewrite <- !repeat_app; reflexivity).
  rewrite (with_slice_app (make 8) (make 8)) by reflexivity.
  destruct (PutUvarint (make 8) count) as [[c n] |] eqn:Hc; cbn [option_map fst];
    [| reflexivity].
  destruct (PutUvarint_count _ _ _ _ Hc) as [_ Hlc].
  replace (make 8 ++ c ++ make 8 ++ make (length data))
    with ((make 8 ++ c) ++ make 8 ++ make (length data))
    by (rewrite <- app_assoc; reflexivity).
  rewrite (with_slice_app (make 8 ++ c) (make 8))
    by (rewrite ?length_app, ?Hlc; reflexivity).
  destruct (PutUvarint (make 8) total) as [[t m] |] eqn:Ht; cbn [option_map fst];
    [| reflexivity].
  destruct (PutUvarint_count _ _ _ _ Ht) as [_ Hlt].
  replace ((make 8 ++ c) ++ t ++ make (length data))
    with ((make 8 ++ c ++ t) ++ make (length data) ++ [])
    by (rewrite app_nil_r, <- !app_assoc; reflexivity).
  rewrite (with_slice_app (make 8 ++ c ++ t) (make (length data)))
    by (rewrite ?length_app, ?Hlc, ?Hlt; unfold make;
        rewrite ?repeat_length; cbn; lia).
  rewrite copy_same_length by (unfold make; apply repeat_length).
  rewrite app_nil_r, <- !app_assoc. reflexivity.
Qed.

(** Below [2^56] the counters fit and the payload decodes to what was put
    in: the round trip of [TestByteMessageFunc]. *)
Lemma byteMessageFunc_round_trip (data : list byte) (count total : uint64) :
  0 <= count < 2 ^ 56 -> 0 <= total < 2 ^ 56 ->
  exists msg payload,
    byteMessageFunc data count total = Some msg /\
    length msg = (24 + length data)%nat /\
    skipn 8 msg = payload /\
    raw.message msg = Some payload /\
    byteMessage.count payload = Some count /\
    byteMessage.total payload = Some total /\
    byteMessage.data payload = Some data.
Proof.
  intros Hc Ht. rewrite byteMessageFunc_layout.
  destruct (Uvarint_PutUvarint_8 (make 8) count eq_refl Hc)
    as (c & n & -> & Hlc & Huc).
  destruct (Uvarint_PutUvarint_8 (make 8) total eq_refl Ht)
    as (t & m & -> & Hlt & Hut).
  exists (make 8 ++ c ++ t ++ data), (c ++ t ++ data).
  split; [reflexivity |].
  split; [rewrite !length_app, Hlc, Hlt; reflexivity |].
  split; [reflexivity |].
  split; [now apply (slice_from_app (make 8)) |].
  split; [| split].
  - unfold byteMessage.count, slice_to.
    rewrite (slice_app [] c (t ++ data)) by (cbn; lia).
    now rewrite Huc.
  - unfold byteMessage.total.
    rewrite (slice_app c t data) by lia.
    now rewrite Hut.
  - unfold byteMessage.data.
    replace (c ++ t ++ data) with ((c ++ t) ++ data)
      by (rewrite <- app_assoc; reflexivity).
    apply slice_from_app. rewrite length_app, Hlc, Hlt. reflexivity.
Qed.

(** From [2^56] on a counter needs a ninth byte: the call panics. *)
Lemma byteMessageFunc_panics (data : list byte) (count total : uint64) :
  2 ^ 56 <= count \/ 2 ^ 56 <= total ->
  byteMessageFunc data count total = None.
Proof.
  intros H. rewrite byteMessageFunc_layout.
  destruct H as [H | H].
  - now rewrite (PutUvarint_overflows (make 8) count H).
  - rewrite (PutUvarint_overflows (make 8) total H).
    now destruct (PutUvarint (make 8) count) as [[c n] |].
Qed.

(** C6 at a failing input: for [total = 2^56], with [count = 0 < total]
    and no data, the generator does not build the message that the round
    trip is to decode; the call panics in [PutUvarint], which needs a
    ninth byte in the eight of [msg[16:24]]. *)
Theorem byteMessageFunc_panics_at_2_56 :
  byteMessageFunc [] 0 (2 ^ 56) = None.
Proof. apply byteMessageFunc_panics. right. lia. Qed.

(** What [rawMessageFunc] returns over a message of at least 8 bytes. *)
Lemma rawMessageFunc_layout (msgType format : list byte)
    (generateMessage : rawMessageGenerator) (count total : uint64)
    (msg : rawMessage) :
  length msgType = 4%nat -> length format = 4%nat ->
  generateMessage count total = Some msg -> (8 <= length msg)%nat ->
  rawMessageFunc msgType format generateMessage count total
  = Some (msgType ++ format ++ skipn 8 msg).
Proof.
  intros Hty Hfmt Hgen Hlen. unfold rawMessageFunc. rewrite Hgen.
  assert (Hsplit : msg = [] ++ firstn 4 msg ++ skipn 4 msg)
    by (symmetry; apply firstn_skipn).
  rewrite Hsplit at 1.
  rewrite (with_slice_app [] (firstn 4 msg))
    by (rewrite ?length_firstn; cbn [length]; lia).
  rewrite copy_same_length by (rewrite length_firstn; lia).
  cbn [app].
  assert (Hsplit' : skipn 4 msg = firstn 4 (skipn 4 msg) ++ skipn 8 msg).
  { rewrite <- (firstn_skipn 4 (skipn 4 msg)) at 1. f_equal.
    now rewrite skipn_skipn. }
  rewrite Hsplit'.
  rewrite (with_slice_app msgType (firstn 4 (skipn 4 msg)))
    by (rewrite ?length_firstn, ?length_skipn; lia).
  rewrite copy_same_length by (rewrite length_firstn, length_skipn; lia).
  reflexivity.
Qed.

(** C7, as the wrapper has it.  Over an inner generator that returns a
    message of at least 8 bytes, the message returned by [rawMessageFunc]
    has the type tag in its first four bytes and the format tag in the next
    four, whatever the inner generator wrote there, and the payload of the
    inner message after them. *)
Theorem rawMessageFunc_stamps_header (msgType format : list byte)
    (generateMessage : rawMessageGenerator) (count total : uint64)
    (msg : rawMessage) :
  length msgType = 4%nat -> length format = 4%nat ->
  generateMessage count total = Some msg -> (8 <= length msg)%nat ->
  exists out,
    rawMessageFunc msgType format generateMessage count total = Some out /\
    raw.messageType out = Some msgType /\
    raw.format out = Some format /\
    raw.message out = raw.message msg.
Proof.
  intros Hty Hfmt Hgen Hlen.
  exists (msgType ++ format ++ skipn 8 msg).
  split; [now apply rawMessageFunc_layout |].
  split; [| split].
  - unfold raw.messageType, slice_to.
    apply (slice_app [] msgType (format ++ skipn 8 msg)); cbn [length]; lia.
  - unfold raw.format. apply slice_app; lia.
  - unfold raw.message.
    replace (msgType ++ format ++ skipn 8 msg)
      with ((msgType ++ format) ++ skipn 8 msg)
      by (rewrite <- app_assoc; reflexivity).
    rewrite (slice_from_app (msgType ++ format)) by (rewrite length_app; lia).
    rewrite <- (firstn_skipn 8 msg) at 2.
    now rewrite (slice_from_app (firstn 8 msg)) by (rewrite length_firstn; lia).
Qed.

End GeneratorFacts.

(** ** The slave's handler *)

Section HandlerFacts.

Context {D : Type}.
Variable json_Unmarshal : list byte -> option (structMessage.t D).
Variable Decrypt : list byte -> string -> option (list byte).
Variable config : configuration.t.

Local Abbreviation handler := (handler json_Unmarshal Decrypt config).
Local Abbreviation run := (run json_Unmarshal Decrypt config).
Local Abbreviation deliveredTotal := (deliveredTotal json_Unmarshal Decrypt config).
Local Abbreviation deliveredCount := (deliveredCount json_Unmarshal Decrypt config).

(** One invocation on a message whose counters can be read and whose total
    is not zero. *)
Lemma handler_job_message (now : Z) (data : rawMessage) (rc c t : uint64) :
  deliveredCount data = Some c -> deliveredTotal data = Some t -> t <> 0 ->
  handler now data rc =
  let rc' := if c =? 0 then 0 else rc in
  (Normal, wrap64 (rc' + 1),
   if (c =? wrap64 (t - 1)) && (rc' =? wrap64 (t - 1))
   then [received config now t] else []).
Proof.
  unfold deliveredCount, deliveredTotal, handler, handlerBody.
  intros Hc Ht Hne.
  destruct (receive json_Unmarshal Decrypt config data) as [m | |];
    try discriminate.
  cbn [bind]. rewrite Ht, Hc. cbn [call bind].
  replace (t =? 0) with false by (symmetry; apply Z.eqb_neq; exact Hne).
  cbv zeta.
  destruct ((c =? wrap64 (t - 1)) && ((if c =? 0 then 0 else rc) =? wrap64 (t - 1)));
    reflexivity.
Qed.

(** One invocation on a message whose total is zero. *)
Lemma handler_total_zero (now : Z) (data : rawMessage) (rc : uint64) :
  deliveredTotal data = Some 0 ->
  handler now data rc = (Normal, wrap64 (rc + 1), []).
Proof.
  unfold deliveredTotal, handler, handlerBody.
  intros Ht.
  destruct (receive json_Unmarshal Decrypt config data) as [m | |];
    try discriminate.
  cbn [bind]. rewrite Ht. reflexivity.
Qed.

Lemma countsFrom_length (n : nat) : forall k, length (countsFrom k n) = n.
Proof. induction n as [| n IH]; intros k; cbn; [| rewrite IH]; reflexivity. Qed.

(** The messages [k], [k + 1], ..., [Total - 1] of a job, delivered in this
    order to a handler whose counter agrees with [k] (or is about to be
    reset by the message numbered 0): only the last invocation publishes. *)
Lemma run_in_order (Total : uint64) :
  forall (ds : list delivery) (k rc : uint64),
    0 <= k -> ds <> [] -> k + Z.of_nat (length ds) = Total -> Total < 2 ^ 64 ->
    map deliveredCount (map snd ds) = map Some (countsFrom k (length ds)) ->
    Forall (fun d => deliveredTotal (snd d) = Some Total) ds ->
    k = 0 \/ rc = k ->
    run ds rc =
    repeat [] (length ds - 1)
    ++ [[received config (fst (last ds (0, []))) Total]].
Proof.
  induction ds as [| [now data] rest IH]; intros k rc Hk Hne Hlen Hmax Hcs Hts Hrc;
    [congruence |].
  cbn [length map snd countsFrom] in Hcs, Hlen. injection Hcs as Hc Hcs.
  inversion Hts as [| ? ? Ht Hts']; subst. cbn [snd] in Ht.
  cbn [run]. rewrite (handler_job_message now data rc k _ Hc Ht) by lia.
  cbv zeta.
  assert (Hrc' : (if k =? 0 then 0 else rc) = k).
  { destruct (Z.eqb_spec k 0); lia. }
  rewrite Hrc'. rewrite !VarintFacts.wrap64_small by lia.
  destruct rest as [| d' rest'].
  - replace (k =? _ - 1) with true by (symmetry; apply Z.eqb_eq; cbn; lia).
    reflexivity.
  - replace (k =? _ - 1) with false
      by (symmetry; apply Z.eqb_neq; cbn [length]; lia).
    cbn [andb].
    rewrite (IH (k + 1) (k + 1)); try assumption; try discriminate;
      cbn [length] in *; try lia.
    cbn [Nat.sub]. rewrite Nat.sub_0_r. reflexivity.
Qed.

(** Fewer deliveries than it takes to bring the counter to [Total - 1]:
    no invocation publishes. *)
Lemma run_too_few (Total : uint64) :
  forall (ds : list delivery) (cs : list uint64) (rc : uint64),
    0 <= rc -> rc + Z.of_nat (length ds) < Total -> Total < 2 ^ 64 ->
    map deliveredCount (map snd ds) = map Some cs ->
    Forall (fun d => deliveredTotal (snd d) = Some Total) ds ->
    run ds rc = repeat [] (length ds).
Proof.
  induction ds as [| [now data] rest IH]; intros cs rc Hrc Hlen Hmax Hcs Hts;
    [reflexivity |].
  destruct cs as [| c cs']; [discriminate |].
  cbn [length map snd] in Hcs, Hlen. injection Hcs as Hc Hcs.
  inversion Hts as [| ? ? Ht Hts']; subst. cbn [snd] in Ht.
  cbn [run]. rewrite (handler_job_message now data rc c _ Hc Ht) by lia.
  cbv zeta.
  assert (Hrc' : 0 <= (if c =? 0 then 0 else rc) <= rc).
  { destruct (c =? 0); lia. }
  rewrite !VarintFacts.wrap64_small by lia.
  replace ((if c =? 0 then 0 else rc) =? Total - 1) with false
    by (symmetry; apply Z.eqb_neq; lia).
  rewrite andb_false_r.
  rewrite (IH cs'); try assumption; try lia.
  reflexivity.
Qed.

(** A message numbered 0 resets the counter: what follows does not depend
    on the counter it found. *)
Lemma run_first_message (first : delivery) (rest : list delivery)
    (t rc rc' : uint64) :
  deliveredCount (snd first) = Some 0 -> deliveredTotal (snd first) = Some t ->
  t <> 0 ->
  run (first :: rest) rc = run (first :: rest) rc'.
Proof.
  destruct first as [now data]. cbn [snd]. intros Hc Ht Hne. cbn [run].
  rewrite !(handler_job_message now data _ 0 t Hc Ht Hne). reflexivity.
Qed.

Lemma run_total_zero (zs rest : list delivery) :
  Forall (fun z => deliveredTotal (snd z) = Some 0) zs ->
  forall rc, exists rc',
    run (zs ++ rest) rc = repeat [] (length zs) ++ run rest rc'.
Proof.
  induction 1 as [| [now data] zs Hz _ IH]; intros rc.
  - exists rc. reflexivity.
  - cbn [snd] in Hz. cbn [app run]. rewrite (handler_total_zero now data rc Hz).
    destruct (IH (wrap64 (rc + 1))) as [rc' ->]. exists rc'. reflexivity.
Qed.

(** C1. The [Total] messages of one job, numbered 0 to [Total - 1], each
    with [total() = Total], delivered in order to a handler whose
    [receivedCounter] is 0: the first [Total - 1] invocations publish
    nothing and the last one, which handles the message numbered
    [Total - 1], publishes one metric, on the [.metric] subject, with
    [Job = "received"], the time of that invocation and
    [Count = Total]. *)
Theorem completion_of_in_order_job (Total : uint64) (ds : list delivery) :
  1 <= Total < 2 ^ 64 ->
  map deliveredCount (map snd ds) = map Some (upto Total) ->
  Forall (fun d => deliveredTotal (snd d) = Some Total) ds ->
  run ds 0 =
  repeat [] (Z.to_nat Total - 1)
  ++ [[((configuration.Subject config ++ ".metric")%string,
        {| metric.Job := "received";
           metric.Time := fst (last ds (0, []));
           metric.Count := Total |})]].
Proof.
  intros HT Hcs Hts.
  change (configuration.Subject config ++ ".metric",
          {| metric.Job := "received";
             metric.Time := fst (last ds (0, []));
             metric.Count := Total |})%string
    with (received config (fst (last ds (0, []))) Total).
  assert (Hlen : length ds = Z.to_nat Total).
  { apply (f_equal (@length _)) in Hcs.
    unfold upto in Hcs. now rewrite !length_map, countsFrom_length in Hcs. }
  rewrite <- Hlen. apply (run_in_order Total ds 0 0); try lia.
  - intros ->. cbn in Hlen. lia.
  - unfold upto in Hcs. now rewrite Hlen.
  - exact Hts.
Qed.

(** C2, as the handler has it.  A message with [total() = 0] is counted
    like every delivery: the invocation publishes nothing, resets nothing
    and leaves [receivedCounter] one higher.  Such messages delivered
    before the first message of a job (the one numbered 0, which resets the
    counter) change nothing of what the job's deliveries publish. *)
Theorem total_zero_counted_not_published (zs : list delivery) :
  Forall (fun z => deliveredTotal (snd z) = Some 0) zs ->
  (forall z rc, In z zs ->
     handler (fst z) (snd z) rc = (Normal, wrap64 (rc + 1), []))
  /\ (forall first rest t rc,
        deliveredCount (snd first) = Some 0 ->
        deliveredTotal (snd first) = Some t -> t <> 0 ->
        run (zs ++ first :: rest) rc
        = repeat [] (length zs) ++ run (first :: rest) rc).
Proof.
  intros Hzs. split.
  - intros z rc Hin. apply handler_total_zero.
    rewrite Forall_forall in Hzs. now apply Hzs.
  - intros first rest t rc Hc Ht Hne.
    destruct (run_total_zero zs (first :: rest) Hzs rc) as [rc' ->].
    f_equal. exact (run_first_message first rest t rc' rc Hc Ht Hne).
Qed.

(** C3, as the handler has it.  On a message with [count() = 0] and
    [total() <> 0] the reset happens in the body and the deferred increment
    runs after it: the handler returns with [receivedCounter = 1]. *)
Theorem counter_is_one_after_first_message (now : Z) (data : rawMessage)
    (rc t : uint64) :
  deliveredCount data = Some 0 -> deliveredTotal data = Some t -> t <> 0 ->
  fst (handler now data rc) = (Normal, 1).
Proof.
  intros Hc Ht Hne. rewrite (handler_job_message now data rc 0 t Hc Ht Hne).
  reflexivity.
Qed.

(** C4, as the handler has it.  A raw message shorter than 8 bytes has no
    payload to take: [raw[8:]] panics, the handler, which starts with it,
    does not recover, and the invocation ends in the panic with the
    deferred increment done and nothing published. *)
Theorem short_message_panics (data : rawMessage) :
  (length data < 8)%nat ->
  raw.message data = None /\
  forall now rc, handler now data rc = (Panics, wrap64 (rc + 1), []).
Proof.
  intros Hlen.
  assert (Hm : raw.message data = None).
  { unfold raw.message, slice_from, slice.
    replace (8 <=? length data)%nat with false
      by (symmetry; apply Nat.leb_gt; exact Hlen).
    reflexivity. }
  split; [exact Hm |]. intros now rc.
  unfold handler, handlerBody, receive, decryptBody. rewrite Hm. reflexivity.
Qed.

(** C5. A job of [Total >= 2] messages of which one is missing: the
    [Total - 1] others, the last-numbered one among them, delivered in any
    order to a handler whose [receivedCounter] is 0.  No invocation
    publishes. *)
Theorem no_completion_when_one_is_missing (Total missing : uint64)
    (cs : list uint64) (ds : list delivery) :
  2 <= Total < 2 ^ 64 ->
  Permutation (missing :: cs) (upto Total) -> In (Total - 1) cs ->
  map deliveredCount (map snd ds) = map Some cs ->
  Forall (fun d => deliveredTotal (snd d) = Some Total) ds ->
  run ds 0 = repeat [] (Z.to_nat Total - 1).
Proof.
  intros HT Hperm Hlast Hcs Hts.
  assert (Hlen : S (length ds) = Z.to_nat Total).
  { apply Permutation_length in Hperm. apply (f_equal (@length _)) in Hcs.
    unfold upto in Hperm. rewrite countsFrom_length in Hperm.
    rewrite !length_map in Hcs. cbn [length] in Hperm.
    rewrite <- Hperm. f_equal. exact Hcs. }
  replace (Z.to_nat Total - 1)%nat with (length ds) by lia.
  apply (run_too_few Total ds cs 0); try assumption; lia.
Qed.

End HandlerFacts.

(** ** The master: start-up and the publish loop *)

Section MasterFacts.

Context {D : Type}.
Variable json_Marshal : structMessage.t D -> list byte.
Variable Encrypt : list byte -> string -> option (list byte).
Variable GetConf : string -> option configuration.t.
Variable ReadFile : string -> option (list byte).
Variable myStruct : D.

Local Abbreviation readConfig := (readConfig GetConf).
Local Abbreviation main := (main json_Marshal Encrypt GetConf ReadFile myStruct).
Local Abbreviation masterPublishes :=
  (masterPublishes json_Marshal Encrypt GetConf ReadFile myStruct).

(** The loop from [count], with [n] turns to go and fuel for them. *)
Lemma publishLoop_turns (generateMessage : rawMessageGenerator)
    (subject : string) (Total : uint64) (g : uint64 -> rawMessage) :
  Total < 2 ^ 64 ->
  (forall c, 0 <= c < Total -> generateMessage c Total = Some (g c)) ->
  forall (n fuel : nat) (count : uint64),
    0 <= count -> count + Z.of_nat n = Total -> (n < fuel)%nat ->
    publishLoop fuel generateMessage subject Total count
    = Some (flat_map (turn subject Total g) (countsFrom count n), Normal).
Proof.
  intros Hmax Hgen.
  induction n as [| n IH]; intros fuel count Hc Hn Hfuel;
    (destruct fuel as [| fuel]; [lia |]); cbn [publishLoop].
  - replace (count <? Total) with false by (symmetry; apply Z.ltb_ge; lia).
    reflexivity.
  - replace (count <? Total) with true by (symmetry; apply Z.ltb_lt; lia).
    rewrite Hgen by lia.
    unfold wrap64. rewrite Z.mod_small by lia.
    rewrite (IH fuel (count + 1)) by lia.
    reflexivity.
Qed.

(** A configuration read from the file is refused unless its key has 32
    bytes. *)
Lemma readConfig_key_length (configFile : string) (config : configuration.t) :
  readConfig configFile = inl config ->
  String.length (configuration.AESEncryptionKey config) = 32%nat.
Proof.
  unfold readConfig. destruct (GetConf configFile) as [loaded |]; [| discriminate].
  destruct (Nat.eqb_spec (String.length (configuration.AESEncryptionKey loaded)) 32)
    as [Heq | Hne]; cbn [negb]; [| discriminate].
  intros H. injection H as <-.
  repeat match goal with
         | |- context [if ?b then _ else _] => destruct b
         end; exact Heq.
Qed.

(** C8. A configuration whose key is not 32 bytes long: [readConfig]
    returns the key-length error, [main] returns on it whatever the role,
    before the generator is chosen and before anything is generated or
    published.  And whenever [main] gets to run as master, the generator
    it runs was built from a key of 32 bytes. *)
Theorem key_length_checked_at_startup (configFile : string)
    (loaded : configuration.t) :
  GetConf configFile = Some loaded ->
  String.length (configuration.AESEncryptionKey loaded) <> 32%nat ->
  readConfig configFile = inr "config: len(config.AESEncryptionKey) != 32"%string
  /\ (forall slave,
        main configFile slave
        = Exited "config: len(config.AESEncryptionKey) != 32"%string)
  /\ (forall fuel, masterPublishes fuel configFile = Some ([], Normal))
  /\ (forall file config generateMessage,
        main file false = Master config generateMessage ->
        String.length (configuration.AESEncryptionKey config) = 32%nat).
Proof.
  intros Hconf Hkey.
  assert (Hread : readConfig configFile
                  = inr "config: len(config.AESEncryptionKey) != 32"%string).
  { unfold readConfig. rewrite Hconf.
    destruct (Nat.eqb_spec (String.length (configuration.AESEncryptionKey loaded)) 32);
      [contradiction | reflexivity]. }
  assert (Hmain : forall slave,
             main configFile slave
             = Exited "config: len(config.AESEncryptionKey) != 32"%string).
  { intros slave. unfold main. now rewrite Hread. }
  split; [exact Hread |]. split; [exact Hmain |]. split.
  - intros fuel. unfold masterPublishes. now rewrite Hmain.
  - intros file config generateMessage. unfold main.
    destruct (readConfig file) as [config' | err] eqn:Hfile; [| discriminate].
    destruct (selectScenario json_Marshal Encrypt ReadFile myStruct config');
      [| discriminate].
    intros H. injection H as <- _.
    exact (readConfig_key_length file config' Hfile).
Qed.


End MasterFacts.

(** ** The format step of the handler *)

Section FormatFacts.
Import GeneratorFacts.

Lemma raw_message_skipn (data : rawMessage) :
  (8 <= length data)%nat -> raw.message data = Some (skipn 8 data).
Proof.
  intros Hlen. unfold raw.message.
  rewrite <- (firstn_skipn 8 data) at 1.
  apply slice_from_app. rewrite length_firstn. lia.
Qed.

Lemma raw_messageType_firstn (data : rawMessage) :
  (4 <= length data)%nat -> raw.messageType data = Some (firstn 4 data).
Proof.
  intros Hlen. unfold raw.messageType, slice_to.
  rewrite <- (firstn_skipn 4 data) at 1.
  apply (slice_app [] (firstn 4 data) (skipn 4 data));
    rewrite ?length_firstn; cbn [length]; lia.
Qed.

(** The message with its format tag replaced. *)
Lemma reformatted (data : rawMessage) (format : list byte) :
  (8 <= length data)%nat -> length format = 4%nat ->
  let data' := firstn 4 data ++ format ++ skipn 8 data in
  raw.message data' = Some (skipn 8 data) /\
  raw.format data' = Some format /\
  raw.messageType data' = Some (firstn 4 data).
Proof.
  intros Hlen Hfmt data'. subst data'.
  assert (H4 : length (firstn 4 data) = 4%nat) by (rewrite length_firstn; lia).
  split; [| split].
  - unfold raw.message.
    replace (firstn 4 data ++ format ++ skipn 8 data)
      with ((firstn 4 data ++ format) ++ skipn 8 data)
      by (rewrite <- app_assoc; reflexivity).
    apply slice_from_app. rewrite length_app. lia.
  - unfold raw.format. apply slice_app; lia.
  - unfold raw.messageType, slice_to.
    apply (slice_app [] (firstn 4 data)); cbn [length]; lia.
Qed.

(** C10. A message of at least 8 bytes whose format tag is neither "encr"
    nor "byte": the format step hands on the bytes after the header as they
    are, whatever [Decrypt] would do, and the invocation goes as it does on
    the same message with the format tag "byte". *)
Theorem unknown_format_is_plain {D : Type}
    (json_Unmarshal : list byte -> option (structMessage.t D))
    (Decrypt Decrypt' : list byte -> string -> option (list byte))
    (config : configuration.t) (now : Z) (data : rawMessage)
    (fmt : list byte) (rc : uint64) :
  (8 <= length data)%nat ->
  raw.format data = Some fmt ->
  bytes_eqb fmt (bytes_of_string "encr") = false ->
  bytes_eqb fmt (bytes_of_string "byte") = false ->
  decryptBody Decrypt config data = Next (skipn 8 data) /\
  handler json_Unmarshal Decrypt config now data rc
  = handler json_Unmarshal Decrypt' config now
      (firstn 4 data ++ bytes_of_string "byte" ++ skipn 8 data) rc.
Proof.
  intros Hlen Hfmt Hencr Hbyte.
  assert (Hbody : decryptBody Decrypt config data = Next (skipn 8 data)).
  { unfold decryptBody. rewrite (raw_message_skipn data Hlen), Hfmt.
    cbn [call bind]. now rewrite Hencr, Hbyte. }
  split; [exact Hbody |].
  destruct (reformatted data (bytes_of_string "byte") Hlen eq_refl)
    as (Hm' & Hf' & Ht').
  unfold handler, handlerBody, receive. rewrite Hbody.
  unfold decryptBody at 1. rewrite Hm', Hf'. cbn [call bind].
  replace (bytes_eqb (bytes_of_string "byte") (bytes_of_string "encr"))
    with false by reflexivity.
  replace (bytes_eqb (bytes_of_string "byte") (bytes_of_string "byte"))
    with true by reflexivity.
  cbn [bind]. unfold decodeBody.
  rewrite Ht', (raw_messageType_firstn data) by lia.
  reflexivity.
Qed.

End FormatFacts.

(** ** The properties on sample inputs *)

Module Evaluation.
Import Sample.

(** The three messages of a job of three, in order. *)
Lemma completion_of_in_order_job_witness :
  run [(10, generated 0 3); (11, generated 1 3); (12, generated 2 3)] 0
  = [[]; [];
     [("go-nats-go.metric"%string,
       {| metric.Job := "received"; metric.Time := 12; metric.Count := 3 |})]].
Proof.
  apply (completion_of_in_order_job json_Unmarshal Decrypt config 3
           [(10, generated 0 3); (11, generated 1 3); (12, generated 2 3)]).
  - lia.
  - reflexivity.
  - repeat constructor.
Defined.

(** Two messages with total 0, then a job of two. *)
Lemma total_zero_counted_not_published_witness :
  handler 5 (make 24) 7 = (Normal, 8, []) /\
  run ([(5, make 24); (6, make 24)]
       ++ [(10, generated 0 2); (11, generated 1 2)]) 9
  = [[]; []] ++ run [(10, generated 0 2); (11, generated 1 2)] 9.
Proof.
  destruct (total_zero_counted_not_published json_Unmarshal Decrypt config
              [(5, make 24); (6, make 24)]) as [Hcount Hrun].
  - repeat constructor.
  - split.
    + apply (Hcount (5, make 24) 7). left. reflexivity.
    + apply (Hrun (10, generated 0 2) [(11, generated 1 2)] 2 9).
      * reflexivity.
      * reflexivity.
      * lia.
Defined.

(** The first message of a job of three, found with the counter at 7. *)
Lemma counter_is_one_after_first_message_witness :
  fst (handler 10 (generated 0 3) 7) = (Normal, 1).
Proof.
  apply (counter_is_one_after_first_message json_Unmarshal Decrypt config
           10 (generated 0 3) 7 3).
  - reflexivity.
  - reflexivity.
  - lia.
Defined.

(** A message of three bytes. *)
Lemma short_message_panics_witness :
  raw.message [98; 121; 116] = None /\
  handler 0 [98; 121; 116] 4 = (Panics, 5, []).
Proof.
  destruct (short_message_panics json_Unmarshal Decrypt config [98; 121; 116])
    as [Hmessage Hhandler].
  - cbn [length]. lia.
  - split; [exact Hmessage | exact (Hhandler 0 4)].
Defined.

(** A job of three without its message numbered 1, the last one first. *)
Lemma no_completion_when_one_is_missing_witness :
  run [(12, generated 2 3); (10, generated 0 3)] 0 = [[]; []].
Proof.
  apply (no_completion_when_one_is_missing json_Unmarshal Decrypt config
           3 1 [2; 0] [(12, generated 2 3); (10, generated 0 3)]).
  - lia.
  - change (upto 3) with [0; 1; 2].
    apply (perm_trans (l' := [1; 0; 2])).
    + apply perm_skip. apply perm_swap.
    + apply perm_swap.
  - left. reflexivity.
  - reflexivity.
  - repeat constructor.
Defined.

(** The tags "test" and "byte" over the message of [byteMessageFunc]. *)
Lemma rawMessageFunc_stamps_header_witness :
  exists out,
    rawMessageFunc (bytes_of_string "test") (bytes_of_string "byte")
      (byteMessageFunc (make 2)) 0 3 = Some out /\
    raw.messageType out = Some (bytes_of_string "test") /\
    raw.format out = Some (bytes_of_string "byte") /\
    raw.message out = raw.message (make 16 ++ [3] ++ make 9).
Proof.
  apply (GeneratorFacts.rawMessageFunc_stamps_header
           (bytes_of_string "test") (bytes_of_string "byte")
           (byteMessageFunc (make 2)) 0 3 (make 16 ++ [3] ++ make 9)).
  - reflexivity.
  - reflexivity.
  - reflexivity.
  - cbn. lia.
Defined.

(** A configuration file with a key of eight bytes. *)
Lemma key_length_checked_at_startup_witness :
  readConfig (fun _ => Some shortKeyConfig) "config.json"
  = inr "config: len(config.AESEncryptionKey) != 32"%string /\
  main json_Marshal Encrypt (fun _ => Some shortKeyConfig) ReadFile tt
    "config.json" false
  = Exited "config: len(config.AESEncryptionKey) != 32"%string /\
  masterPublishes json_Marshal Encrypt (fun _ => Some shortKeyConfig)
    ReadFile tt 5 "config.json"
  = Some ([], Normal).
Proof.
  destruct (key_length_checked_at_startup json_Marshal Encrypt
              (fun _ => Some shortKeyConfig) ReadFile tt
              "config.json" shortKeyConfig)
    as (Hread & Hmain & Hpublishes & _).
  - reflexivity.
  - cbn. lia.
  - split; [exact Hread |]. split; [exact (Hmain false) | exact (Hpublishes 5%nat)].
Defined.


(** The first message of a job of three with the format tag "gzip". *)
Lemma unknown_format_is_plain_witness :
  decryptBody Decrypt config
    (bytes_of_string "byte" ++ bytes_of_string "gzip"
     ++ skipn 8 (generated 0 3))
  = Next (skipn 8 (generated 0 3)) /\
  handler 10
    (bytes_of_string "byte" ++ bytes_of_string "gzip"
     ++ skipn 8 (generated 0 3)) 0
  = handlerDecryptAny 10 (generated 0 3) 0.
Proof.
  apply (unknown_format_is_plain json_Unmarshal Decrypt DecryptAny config 10
           (bytes_of_string "byte" ++ bytes_of_string "gzip"
            ++ skipn 8 (generated 0 3))
           (bytes_of_string "gzip") 0).
  - cbn. lia.
  - reflexivity.
  - reflexivity.
  - reflexivity.
Defined.

(** C2 as stated fails: a message with [total() = 0] moves the counter
    from 5 to 6, and one delivered between the two messages of a job of
    two takes away the metric that the job alone gets. *)
Lemma total_zero_message_moves_counter :
  deliveredTotal (make 24) = Some 0 /\
  snd (fst (handler 20 (make 24) 5)) <> 5 /\
  run [(10, generated 0 2); (11, generated 1 2)] 0
  = [[]; [received config 11 2]] /\
  run [(10, generated 0 2); (20, make 24); (11, generated 1 2)] 0
  = [[]; []; []].
Proof.
  split; [reflexivity |]. split; [vm_compute; discriminate |].
  split; reflexivity.
Qed.

(** C3 as stated fails: after the first message of a job of three the
    handler has returned and the counter is 1, not 0. *)
Lemma first_message_leaves_counter_at_one :
  deliveredCount (generated 0 3) = Some 0 /\
  deliveredTotal (generated 0 3) = Some 3 /\
  handler 10 (generated 0 3) 0 = (Normal, 1, []) /\
  snd (fst (handler 10 (generated 0 3) 0)) <> 0.
Proof.
  split; [reflexivity |]. split; [reflexivity |]. split; [reflexivity |].
  vm_compute. discriminate.
Qed.

(** C4 as stated fails: on a message of three bytes no error value comes
    back from [raw.message] and the invocation ends in a panic. *)
Lemma three_byte_message_panics :
  raw.message [98; 121; 116] = None /\
  fst (fst (handler 0 [98; 121; 116] 0)) = Panics.
Proof. split; reflexivity. Qed.


(** C7 as stated fails: over a generator that returns no bytes the wrapper
    returns no message; it panics on [msg[:4]]. *)
Lemma rawMessageFunc_panics_on_empty_message :
  emptyGenerator 0 1 = Some [] /\
  rawMessageFunc (bytes_of_string "byte") (bytes_of_string "byte")
    emptyGenerator 0 1 = None.
Proof. split; reflexivity. Qed.

End Evaluation.

(** * Further properties of the generators *)

Module GeneratorProperties.
Import binary VarintFacts GeneratorFacts.

Lemma header_of_unframed (payload : list byte) :
  raw.messageType (make 8 ++ payload) = Some zeroTag /\
  raw.format (make 8 ++ payload) = Some zeroTag /\
  raw.message (make 8 ++ payload) = Some payload.
Proof.
  split; [| split].
  - apply (slice_app [] zeroTag (zeroTag ++ payload)); reflexivity.
  - apply (slice_app zeroTag zeroTag payload); reflexivity.
  - now apply (slice_from_app (make 8)).
Qed.

(** X1. [TestByteMessageFunc] for all data and all counters below [2^56]:
    the generator returns a message of [24 + len(data)] bytes whose two
    tags are still zero and whose payload gives back the count, the total
    and the data. *)
Theorem byte_message_round_trip (data : list byte) (count total : uint64) :
  0 <= count < 2 ^ 56 -> 0 <= total < 2 ^ 56 ->
  exists msg payload,
    byteMessageFunc data count total = Some msg /\
    length msg = (24 + length data)%nat /\
    raw.messageType msg = Some zeroTag /\
    raw.format msg = Some zeroTag /\
    raw.message msg = Some payload /\
    byteMessage.count payload = Some count /\
    byteMessage.total payload = Some total /\
    byteMessage.data payload = Some data.
Proof.
  intros Hc Ht.
  destruct (byteMessageFunc_round_trip data count total Hc Ht)
    as (msg & payload & Hgen & Hlen & Hskip & Hmsg & Hcount & Htotal & Hdata).
  exists msg, payload. repeat split; try assumption.
  - rewrite byteMessageFunc_layout in Hgen.
    destruct (PutUvarint (make 8) count) as [[c n] |]; [| discriminate].
    destruct (PutUvarint (make 8) total) as [[t m] |]; [| discriminate].
    injection Hgen as <-. apply header_of_unframed.
  - rewrite byteMessageFunc_layout in Hgen.
    destruct (PutUvarint (make 8) count) as [[c n] |]; [| discriminate].
    destruct (PutUvarint (make 8) total) as [[t m] |]; [| discriminate].
    injection Hgen as <-. apply header_of_unframed.
Qed.

Lemma byte_message_round_trip_witness :
  exists msg payload,
    byteMessageFunc [104; 105] 300 1000 = Some msg /\
    length msg = 26%nat /\
    raw.messageType msg = Some zeroTag /\
    raw.format msg = Some zeroTag /\
    raw.message msg = Some payload /\
    byteMessage.count payload = Some 300 /\
    byteMessage.total payload = Some 1000 /\
    byteMessage.data payload = Some [104; 105].
Proof. apply (byte_message_round_trip [104; 105] 300 1000); lia. Defined.

(** X2. [byteMessageFunc] returns a message exactly when both counters
    are below [2^56]; from [2^56] on, for either of them, the call panics,
    whatever the data. *)
Theorem byteMessageFunc_returns_iff (data : list byte) (count total : uint64) :
  0 <= count -> 0 <= total ->
  (byteMessageFunc data count total = None
   <-> 2 ^ 56 <= count \/ 2 ^ 56 <= total).
Proof.
  intros Hc Ht. split.
  - intros Hnone.
    destruct (Z_lt_le_dec count (2 ^ 56)) as [Hc' | Hc']; [| now left].
    destruct (Z_lt_le_dec total (2 ^ 56)) as [Ht' | Ht']; [| now right].
    destruct (byteMessageFunc_round_trip data count total) as (msg & _ & Hgen & _);
      try lia.
    congruence.
  - apply byteMessageFunc_panics.
Qed.

Lemma byteMessageFunc_returns_iff_witness :
  byteMessageFunc [1] (2 ^ 56) (2 ^ 56 + 1) = None
  <-> 2 ^ 56 <= 2 ^ 56 \/ 2 ^ 56 <= 2 ^ 56 + 1.
Proof. apply (byteMessageFunc_returns_iff [1] (2 ^ 56) (2 ^ 56 + 1)); lia. Defined.

Lemma structMessageFunc_layout {D : Type}
    (json_Marshal : structMessage.t D -> list byte) (v : D)
    (count total : uint64) :
  structMessageFunc json_Marshal v count total
  = Some (make 8 ++ json_Marshal (structMessage.mk count total v)).
Proof.
  unfold structMessageFunc. cbv zeta.
  set (body := json_Marshal (structMessage.mk count total v)).
  replace (make (4 + 4 + length body)) with (make 8 ++ make (length body) ++ [])
    by (unfold make; rewrite app_nil_r, <- repeat_app; reflexivity).
  rewrite (with_slice_app (make 8) (make (length body)) [])
    by (rewrite ?length_app; unfold make; rewrite ?repeat_length; cbn; lia).
  rewrite copy_same_length by (unfold make; apply repeat_length).
  now rewrite app_nil_r.
Qed.

(** X3. [TestStructMessageFunc] for every value and all counters: the
    struct generator never panics; its message has zero tags and a payload
    that is the JSON of [{count, total, v}], so that an [Unmarshal] which
    reads back what [Marshal] wrote gives the count, the total and the
    value. *)
Theorem struct_message_round_trip {D : Type}
    (json_Marshal : structMessage.t D -> list byte)
    (json_Unmarshal : list byte -> option (structMessage.t D))
    (v : D) (count total : uint64) :
  (forall m, json_Unmarshal (json_Marshal m) = Some m) ->
  exists msg payload tmpStruct,
    structMessageFunc json_Marshal v count total = Some msg /\
    raw.messageType msg = Some zeroTag /\
    raw.format msg = Some zeroTag /\
    raw.message msg = Some payload /\
    json_Unmarshal payload = Some tmpStruct /\
    structMessage.count tmpStruct = Some count /\
    structMessage.total tmpStruct = Some total /\
    structMessage.Data tmpStruct = v.
Proof.
  intros Hjson.
  exists (make 8 ++ json_Marshal (structMessage.mk count total v)),
    (json_Marshal (structMessage.mk count total v)),
    (structMessage.mk count total v).
  split; [apply structMessageFunc_layout |].
  destruct (header_of_unframed (json_Marshal (structMessage.mk count total v)))
    as (Hty & Hfmt & Hmsg).
  repeat split; try assumption. apply Hjson.
Qed.

Lemma encryptedMessageFunc_layout
    (Encrypt : list byte -> string -> option (list byte))
    (generateMessage : rawMessageGenerator) (key : string)
    (count total : uint64) (msg : rawMessage) :
  generateMessage count total = Some msg -> (8 <= length msg)%nat ->
  encryptedMessageFunc Encrypt generateMessage key count total
  = Some (make 8 ++ match Encrypt (skipn 8 msg) key with
                    | Some b => b
                    | None => []
                    end).
Proof.
  intros Hgen Hlen. unfold encryptedMessageFunc. rewrite Hgen.
  assert (Hbody : slice_from msg 8 = Some (skipn 8 msg)).
  { rewrite <- (firstn_skipn 8 msg) at 1.
    apply slice_from_app. rewrite length_firstn. lia. }
  rewrite Hbody. cbv zeta.
  set (body := match Encrypt (skipn 8 msg) key with
               | Some b => b
               | None => []
               end).
  replace (make (8 + length body)) with (make 8 ++ make (length body) ++ [])
    by (unfold make; rewrite app_nil_r, <- repeat_app; reflexivity).
  rewrite (with_slice_app (make 8) (make (length body)) [])
    by (rewrite ?length_app; unfold make; rewrite ?repeat_length; cbn; lia).
  rewrite copy_same_length by (unfold make; apply repeat_length).
  now rewrite app_nil_r.
Qed.

Lemma struct_message_round_trip_witness :
  exists msg payload tmpStruct,
    structMessageFunc SampleCodec.json_Marshal tt 4 5 = Some msg /\
    raw.messageType msg = Some zeroTag /\
    raw.format msg = Some zeroTag /\
    raw.message msg = Some payload /\
    SampleCodec.json_Unmarshal payload = Some tmpStruct /\
    structMessage.count tmpStruct = Some 4 /\
    structMessage.total tmpStruct = Some 5 /\
    structMessage.Data tmpStruct = tt.
Proof.
  apply (struct_message_round_trip SampleCodec.json_Marshal
           SampleCodec.json_Unmarshal tt 4 5).
  intros [c t []]. reflexivity.
Defined.

(** X4. The encryption wrapper drops the error of [Encrypt]: over an
    inner message of at least 8 bytes it always returns a message with
    zero tags, whose payload is the encrypted inner payload when [Encrypt]
    succeeds and is empty, the message being the 8 header bytes alone,
    when [Encrypt] fails. *)
Theorem encryption_error_gives_header_only
    (Encrypt : list byte -> string -> option (list byte))
    (generateMessage : rawMessageGenerator) (key : string)
    (count total : uint64) (msg : rawMessage) :
  generateMessage count total = Some msg -> (8 <= length msg)%nat ->
  exists out,
    encryptedMessageFunc Encrypt generateMessage key count total = Some out /\
    raw.messageType out = Some zeroTag /\
    raw.format out = Some zeroTag /\
    (forall encryptedBody,
       Encrypt (skipn 8 msg) key = Some encryptedBody ->
       raw.message out = Some encryptedBody) /\
    (Encrypt (skipn 8 msg) key = None -> out = make 8).
Proof.
  intros Hgen Hlen.
  rewrite (encryptedMessageFunc_layout Encrypt _ key _ _ msg Hgen Hlen).
  eexists. split; [reflexivity |].
  destruct (header_of_unframed
              match Encrypt (skipn 8 msg) key with
              | Some b => b
              | None => []
              end) as (Hty & Hfmt & Hmsg).
  split; [exact Hty |]. split; [exact Hfmt |]. split.
  - intros encryptedBody Henc. rewrite Henc in *. exact Hmsg.
  - intros ->. apply app_nil_r.
Qed.

Lemma encryption_error_gives_header_only_witness :
  exists out,
    encryptedMessageFunc Sample.Encrypt (byteMessageFunc [9]) "k" 0 3
    = Some out /\
    raw.messageType out = Some zeroTag /\
    raw.format out = Some zeroTag /\
    (forall encryptedBody,
       Sample.Encrypt (make 8 ++ [3] ++ make 7 ++ [9]) "k" = Some encryptedBody ->
       raw.message out = Some encryptedBody) /\
    (Sample.Encrypt (make 8 ++ [3] ++ make 7 ++ [9]) "k" = None ->
     out = make 8).
Proof.
  apply (encryption_error_gives_header_only Sample.Encrypt (byteMessageFunc [9])
           "k" 0 3 (make 16 ++ [3] ++ make 7 ++ [9])).
  - reflexivity.
  - cbn. lia.
Defined.

(** X5. [TestEncryptedMessageFunc] for all data and all counters below
    [2^56]: when [Encrypt] succeeds under the key and [Decrypt] undoes it,
    the message of the encrypted byte generator has zero tags and a
    payload that decrypts to a byte message with the count, the total and
    the data. *)
Theorem encrypted_byte_message_round_trip
    (Encrypt Decrypt : list byte -> string -> option (list byte))
    (key : string) (data : list byte) (count total : uint64) :
  (forall b, exists c, Encrypt b key = Some c /\ Decrypt c key = Some b) ->
  0 <= count < 2 ^ 56 -> 0 <= total < 2 ^ 56 ->
  exists msg body plain,
    encryptedMessageFunc Encrypt (byteMessageFunc data) key count total
    = Some msg /\
    raw.messageType msg = Some zeroTag /\
    raw.format msg = Some zeroTag /\
    raw.message msg = Some body /\
    Decrypt body key = Some plain /\
    byteMessage.count plain = Some count /\
    byteMessage.total plain = Some total /\
    byteMessage.data plain = Some data.
Proof.
  intros Hcrypt Hc Ht.
  destruct (byteMessageFunc_round_trip data count total Hc Ht)
    as (inner & payload & Hgen & Hlen & Hskip & _ & Hcount & Htotal & Hdata).
  destruct (Hcrypt payload) as (c & Henc & Hdec).
  assert (Hlen8 : (8 <= length inner)%nat) by lia.
  rewrite (encryptedMessageFunc_layout Encrypt _ key _ _ inner Hgen Hlen8).
  rewrite Hskip, Henc.
  destruct (header_of_unframed c) as (Hty & Hfmt & Hmsg).
  exists (make 8 ++ c), c, payload. repeat split; assumption.
Qed.

Lemma encrypted_byte_message_round_trip_witness :
  exists msg body plain,
    encryptedMessageFunc SampleCodec.EncryptAny (byteMessageFunc [104; 105])
      "ThisIsMy32BytesKeyForTestingFine" 9 10 = Some msg /\
    raw.messageType msg = Some zeroTag /\
    raw.format msg = Some zeroTag /\
    raw.message msg = Some body /\
    Sample.DecryptAny body "ThisIsMy32BytesKeyForTestingFine" = Some plain /\
    byteMessage.count plain = Some 9 /\
    byteMessage.total plain = Some 10 /\
    byteMessage.data plain = Some [104; 105].
Proof.
  apply (encrypted_byte_message_round_trip SampleCodec.EncryptAny
           Sample.DecryptAny "ThisIsMy32BytesKeyForTestingFine"
           [104; 105] 9 10); try lia.
  intros b. exists (rev b). split; [reflexivity |].
  unfold Sample.DecryptAny. now rewrite rev_involutive.
Defined.

(** X6. [TestRawMessageFunc] for all data, all tags of four bytes and all
    counters below [2^56]: the framed byte generator returns a message that
    carries the two tags and a payload that gives back the count, the
    total and the data. *)
Theorem framed_byte_message_round_trip (msgType format data : list byte)
    (count total : uint64) :
  length msgType = 4%nat -> length format = 4%nat ->
  0 <= count < 2 ^ 56 -> 0 <= total < 2 ^ 56 ->
  exists msg payload,
    rawMessageFunc msgType format (byteMessageFunc data) count total
    = Some msg /\
    raw.messageType msg = Some msgType /\
    raw.format msg = Some format /\
    raw.message msg = Some payload /\
    byteMessage.count payload = Some count /\
    byteMessage.total payload = Some total /\
    byteMessage.data payload = Some data.
Proof.
  intros Hty Hfmt Hc Ht.
  destruct (byteMessageFunc_round_trip data count total Hc Ht)
    as (inner & payload & Hgen & Hlen & Hskip & _ & Hcount & Htotal & Hdata).
  assert (Hlen8 : (8 <= length inner)%nat) by lia.
  rewrite (rawMessageFunc_layout msgType format _ _ _ inner Hty Hfmt Hgen Hlen8).
  rewrite Hskip.
  exists (msgType ++ format ++ payload), payload.
  split; [reflexivity |]. split; [| split; [| split]]; try (repeat split; assumption).
  - apply (slice_app [] msgType (format ++ payload)); cbn [length]; lia.
  - apply slice_app; lia.
  - replace (msgType ++ format ++ payload) with ((msgType ++ format) ++ payload)
      by (rewrite <- app_assoc; reflexivity).
    apply slice_from_app. rewrite length_app. lia.
Qed.

Lemma framed_byte_message_round_trip_witness :
  exists msg payload,
    rawMessageFunc (bytes_of_string "test") (bytes_of_string "byte")
      (byteMessageFunc [104; 105]) 9 10 = Some msg /\
    raw.messageType msg = Some (bytes_of_string "test") /\
    raw.format msg = Some (bytes_of_string "byte") /\
    raw.message msg = Some payload /\
    byteMessage.count payload = Some 9 /\
    byteMessage.total payload = Some 10 /\
    byteMessage.data payload = Some [104; 105].
Proof.
  apply (framed_byte_message_round_trip (bytes_of_string "test")
           (bytes_of_string "byte") [104; 105] 9 10);
    try reflexivity; lia.
Defined.

End GeneratorProperties.

(** * Further properties of the slave's handler *)

Section HandlerProperties.

Context {D : Type}.
Variable json_Unmarshal : list byte -> option (structMessage.t D).
Variable Decrypt : list byte -> string -> option (list byte).
Variable config : configuration.t.

Local Abbreviation receive := (receive json_Unmarshal Decrypt config).
Local Abbreviation handler := (handler json_Unmarshal Decrypt config).
Local Abbreviation run := (run json_Unmarshal Decrypt config).
Local Abbreviation runOutcome := (runOutcome json_Unmarshal Decrypt config).
Local Abbreviation deliveredTotal := (deliveredTotal json_Unmarshal Decrypt config).
Local Abbreviation deliveredCount := (deliveredCount json_Unmarshal Decrypt config).

(** A delivery that is counted and not otherwise acted upon. *)
Local Abbreviation counted now data :=
  (forall rc, handler now data rc = (Normal, wrap64 (rc + 1), [])).

Lemma handler_return (now : Z) (data : rawMessage) :
  receive data = Return -> counted now data.
Proof.
  intros Hr rc. unfold handler, handlerBody. now rewrite Hr.
Qed.

Lemma handler_middle_message (now : Z) (data : rawMessage) (c t : uint64) :
  deliveredCount data = Some c -> deliveredTotal data = Some t ->
  t <> 0 -> c <> 0 -> c <> wrap64 (t - 1) -> counted now data.
Proof.
  intros Hc Ht Ht0 Hc0 Hcl rc.
  rewrite (handler_job_message json_Unmarshal Decrypt config now data rc c t Hc Ht Ht0).
  cbv zeta.
  replace (c =? 0) with false by (symmetry; now apply Z.eqb_neq).
  replace (c =? wrap64 (t - 1)) with false by (symmetry; now apply Z.eqb_neq).
  reflexivity.
Qed.

(** A run goes on after deliveries that do not end in a panic. *)
Lemma run_app (pre ds : list delivery) :
  forall rc rc', runOutcome pre rc = (Normal, rc') ->
    run (pre ++ ds) rc = run pre rc ++ run ds rc'.
Proof.
  induction pre as [| [now data] pre IH]; intros rc rc' Hout.
  - cbn in Hout. injection Hout as <-. reflexivity.
  - cbn [app run runOutcome] in *.
    destruct (handler now data rc) as [[[|] rc1] out]; [| discriminate].
    now rewrite (IH rc1 rc' Hout).
Qed.

Lemma run_counted (mid rest : list delivery) :
  Forall (fun d => counted (fst d) (snd d)) mid ->
  forall rc, 0 <= rc < 2 ^ 64 ->
    run (mid ++ rest) rc
    = repeat [] (length mid) ++ run rest (wrap64 (rc + Z.of_nat (length mid))).
Proof.
  induction 1 as [| [now data] mid Hd _ IH]; intros rc Hrc.
  - cbn [app length repeat Z.of_nat]. rewrite Z.add_0_r.
    now rewrite VarintFacts.wrap64_small.
  - cbn [fst snd] in Hd. cbn [app run length repeat]. rewrite Hd.
    rewrite IH by (unfold wrap64; apply Z.mod_pos_bound; lia).
    do 3 f_equal. unfold wrap64.
    rewrite Z.add_mod_idemp_l by lia. f_equal. lia.
Qed.

(** X7. Whatever is delivered, an invocation leaves [receivedCounter]
    either one higher (modulo [2^64]) or, on a message numbered 0, at 1;
    and it publishes nothing, or the one metric of a message that is read
    as the last of its job: [total()] not zero, [count()] equal to
    [total() - 1], the metric being [{"received", now, total()}], with a
    count that is not 0, published on the [.metric] subject. *)
Theorem handler_publishes_only_completions (now : Z) (data : rawMessage)
    (rc rc' : uint64) (e : exit) (out : list publication) :
  handler now data rc = (e, rc', out) ->
  (rc' = wrap64 (rc + 1) \/ (rc' = 1 /\ deliveredCount data = Some 0))
  /\ (out = []
      \/ exists t,
           e = Normal /\ t <> 0 /\
           deliveredTotal data = Some t /\
           deliveredCount data = Some (wrap64 (t - 1)) /\
           out = [((configuration.Subject config ++ ".metric")%string,
                   {| metric.Job := "received";
                      metric.Time := now;
                      metric.Count := t |})]).
Proof.
  unfold handler, handlerBody, deliveredCount, deliveredTotal, received.
  destruct (receive data) as [m | |]; cbn [bind];
    try (intros H; injection H as <- <- <-; split; [left | left]; reflexivity).
  destruct (total m) as [t |]; cbn [call bind];
    try (intros H; injection H as <- <- <-; split; [left | left]; reflexivity).
  destruct (Z.eqb_spec t 0) as [-> | Ht0];
    try (intros H; injection H as <- <- <-; split; [left | left]; reflexivity).
  destruct (count m) as [c |]; cbn [call bind];
    try (intros H; injection H as <- <- <-; split; [left | left]; reflexivity).
  cbv zeta.
  assert (Hrc : wrap64 ((if c =? 0 then 0 else rc) + 1) = wrap64 (rc + 1)
                \/ (wrap64 ((if c =? 0 then 0 else rc) + 1) = 1
                    /\ Some c = Some 0)).
  { destruct (Z.eqb_spec c 0) as [-> | Hc0]; [right | left]; split; reflexivity. }
  destruct ((c =? wrap64 (t - 1))
            && ((if c =? 0 then 0 else rc) =? wrap64 (t - 1))) eqn:Hcond;
    intros H; injection H as <- <- <-; (split; [exact Hrc |]).
  - right. exists t. apply andb_true_iff in Hcond as [Hcl _].
    apply Z.eqb_eq in Hcl. repeat split; congruence.
  - left. reflexivity.
Qed.

(** X8. A message that cannot be decrypted or unmarshalled, a message
    with total 0 and a job message that is neither the first nor the last
    of its job are all counted and not otherwise acted upon: the handler
    returns, publishes nothing and leaves [receivedCounter] one higher. *)
Theorem ignored_messages_are_counted (now : Z) (data : rawMessage) :
  receive data = Return
  \/ deliveredTotal data = Some 0
  \/ (exists c t,
        deliveredCount data = Some c /\ deliveredTotal data = Some t /\
        t <> 0 /\ c <> 0 /\ c <> wrap64 (t - 1)) ->
  forall rc, handler now data rc = (Normal, wrap64 (rc + 1), []).
Proof.
  intros [Hr | [Hz | (c & t & Hc & Ht & Ht0 & Hc0 & Hcl)]].
  - now apply handler_return.
  - intros rc. now apply handler_total_zero.
  - exact (handler_middle_message now data c t Hc Ht Ht0 Hc0 Hcl).
Qed.

(** X9. The completion test counts deliveries.  After the first message
    of a job of [Total >= 2] (count 0), any number of deliveries that are
    counted and not acted upon, and then the last message (count
    [Total - 1]): the last invocation publishes the metric exactly when
    the deliveries between the two bring the counter to [Total - 1],
    whichever messages they are; no other invocation publishes. *)
Theorem completion_counts_deliveries (Total : uint64)
    (first last : delivery) (mid : list delivery) (rc : uint64) :
  2 <= Total < 2 ^ 64 ->
  deliveredCount (snd first) = Some 0 ->
  deliveredTotal (snd first) = Some Total ->
  Forall (fun d => counted (fst d) (snd d)) mid ->
  deliveredCount (snd last) = Some (Total - 1) ->
  deliveredTotal (snd last) = Some Total ->
  run (first :: mid ++ [last]) rc
  = repeat [] (S (length mid))
    ++ [if wrap64 (Z.of_nat (length mid) + 1) =? Total - 1
        then [received config (fst last) Total] else []].
Proof.
  intros HT Hc0 Ht0 Hmid Hcl Htl.
  destruct first as [now0 data0], last as [nowl datal]. cbn [fst snd] in *.
  cbn [run].
  rewrite (handler_job_message json_Unmarshal Decrypt config now0 data0 rc 0 Total Hc0 Ht0)
    by lia.
  cbv zeta. change (0 =? 0) with true. cbv iota.
  rewrite (VarintFacts.wrap64_small (Total - 1)) by lia.
  replace (0 =? Total - 1) with false by (symmetry; apply Z.eqb_neq; lia).
  cbn [andb repeat app]. f_equal.
  rewrite (run_counted mid [(nowl, datal)] Hmid)
    by (unfold wrap64; apply Z.mod_pos_bound; lia).
  f_equal. cbn [run].
  rewrite (handler_job_message json_Unmarshal Decrypt config nowl datal _ (Total - 1) Total Hcl Htl)
    by lia.
  cbv zeta.
  replace (Total - 1 =? 0) with false by (symmetry; apply Z.eqb_neq; lia).
  rewrite (VarintFacts.wrap64_small (Total - 1)) by lia.
  rewrite Z.eqb_refl. cbn [andb].
  replace (wrap64 (wrap64 (0 + 1) + Z.of_nat (length mid)))
    with (wrap64 (Z.of_nat (length mid) + 1)).
  - reflexivity.
  - unfold wrap64. rewrite Z.add_mod_idemp_l by lia. f_equal. lia.
Qed.

(** X10. A new job is accepted whatever came before.  After any
    deliveries that did not end in a panic, whatever they left in
    [receivedCounter] (a job cut short, messages of other jobs, messages
    that were ignored), the messages of a job delivered in order are
    handled as from a fresh start: only the last invocation publishes,
    the one metric of the job, with [Job = "received"] and
    [Count = Total], on the [.metric] subject. *)
Theorem new_job_completes_after_any_deliveries (Total : uint64)
    (pre job : list delivery) (rc : uint64) :
  1 <= Total < 2 ^ 64 ->
  fst (runOutcome pre rc) = Normal ->
  map deliveredCount (map snd job) = map Some (upto Total) ->
  Forall (fun d => deliveredTotal (snd d) = Some Total) job ->
  run (pre ++ job) rc
  = run pre rc
    ++ repeat [] (Z.to_nat Total - 1)
    ++ [[((configuration.Subject config ++ ".metric")%string,
          {| metric.Job := "received";
             metric.Time := fst (last job (0, []));
             metric.Count := Total |})]].
Proof.
  intros HT Hpre Hcs Hts.
  change (configuration.Subject config ++ ".metric",
          {| metric.Job := "received";
             metric.Time := fst (last job (0, []));
             metric.Count := Total |})%string
    with (received config (fst (last job (0, []))) Total).
  destruct (runOutcome pre rc) as [e rc1] eqn:Hout. cbn [fst] in Hpre. subst e.
  rewrite (run_app pre job rc rc1 Hout). f_equal.
  assert (Hlen : length job = Z.to_nat Total).
  { apply (f_equal (@length _)) in Hcs.
    unfold upto in Hcs. now rewrite !length_map, countsFrom_length in Hcs. }
  rewrite <- Hlen.
  apply (run_in_order json_Unmarshal Decrypt config Total job 0 rc1); try lia.
  - intros ->. cbn in Hlen. lia.
  - unfold upto in Hcs. now rewrite Hlen.
  - exact Hts.
Qed.

(** X11. A message with a header and less than 16 bytes after it, plain
    and not JSON, is read as a byte message whose [total()] slices
    [bytes[8:16]]: the invocation ends in a panic, with the deferred
    increment done and nothing published. *)
Theorem short_byte_payload_panics (data : rawMessage) (fmt ty : list byte) :
  (8 <= length data < 24)%nat ->
  raw.format data = Some fmt ->
  bytes_eqb fmt (bytes_of_string "encr") = false ->
  raw.messageType data = Some ty ->
  bytes_eqb ty (bytes_of_string "json") = false ->
  forall now rc, handler now data rc = (Panics, wrap64 (rc + 1), []).
Proof.
  intros Hlen Hfmt Hencr Hty Hjson now rc.
  assert (Hr : receive data = Next (IsByteMessage (skipn 8 data))).
  { unfold receive, decryptBody, decodeBody.
    rewrite (raw_message_skipn data) by lia. rewrite Hfmt, Hty.
    cbn [call bind]. rewrite Hencr, Hjson.
    destruct (bytes_eqb fmt (bytes_of_string "byte"));
      destruct (bytes_eqb ty (bytes_of_string "byte")); reflexivity. }
  unfold handler, handlerBody. rewrite Hr. cbn [bind total].
  unfold byteMessage.total, slice.
  replace (16 <=? length (skipn 8 data))%nat with false
    by (symmetry; apply Nat.leb_gt; rewrite length_skipn; lia).
  rewrite andb_false_r. reflexivity.
Qed.

End HandlerProperties.

(** The further properties of the handler on sample inputs. *)
Module HandlerEvaluation.

(** The last message of a job of three found with the counter at 2, which
    publishes, and the second one found with the counter at 7, which does
    not. *)
Lemma handler_publishes_only_completions_witness :
  ((3 = wrap64 (2 + 1)
    \/ (3 = 1 /\ Sample.deliveredCount (Sample.generated 2 3) = Some 0))
   /\ ([("go-nats-go.metric"%string,
         {| metric.Job := "received"; metric.Time := 10; metric.Count := 3 |})]
       = []
       \/ exists t,
            Normal = Normal /\ t <> 0 /\
            Sample.deliveredTotal (Sample.generated 2 3) = Some t /\
            Sample.deliveredCount (Sample.generated 2 3)
            = Some (wrap64 (t - 1)) /\
            [("go-nats-go.metric"%string,
              {| metric.Job := "received"; metric.Time := 10;
                 metric.Count := 3 |})]
            = [((configuration.Subject Sample.config ++ ".metric")%string,
                {| metric.Job := "received"; metric.Time := 10;
                   metric.Count := t |})]))
  /\ ((8 = wrap64 (7 + 1)
       \/ (8 = 1 /\ Sample.deliveredCount (Sample.generated 1 3) = Some 0))
      /\ (@nil publication = []
          \/ exists t,
               Normal = Normal /\ t <> 0 /\
               Sample.deliveredTotal (Sample.generated 1 3) = Some t /\
               Sample.deliveredCount (Sample.generated 1 3)
               = Some (wrap64 (t - 1)) /\
               [] = [((configuration.Subject Sample.config ++ ".metric")%string,
                      {| metric.Job := "received"; metric.Time := 10;
                         metric.Count := t |})])).
Proof.
  split.
  - apply (handler_publishes_only_completions Sample.json_Unmarshal
             Sample.Decrypt Sample.config 10 (Sample.generated 2 3) 2 3 Normal
             [("go-nats-go.metric"%string,
               {| metric.Job := "received"; metric.Time := 10;
                  metric.Count := 3 |})]).
    reflexivity.
  - apply (handler_publishes_only_completions Sample.json_Unmarshal
             Sample.Decrypt Sample.config 10 (Sample.generated 1 3) 7 8 Normal
             []).
    reflexivity.
Defined.

(** A message of an unknown key's cipher text, a message with total 0 and
    the second message of a job of three. *)
Lemma ignored_messages_are_counted_witness :
  Sample.handler 10
    (bytes_of_string "byte" ++ bytes_of_string "encr" ++ [1; 2; 3]) 7
  = (Normal, 8, []) /\
  Sample.handler 10 (make 24) 7 = (Normal, 8, []) /\
  Sample.handler 10 (Sample.generated 1 3) 7 = (Normal, 8, []).
Proof.
  split; [| split].
  - apply (ignored_messages_are_counted Sample.json_Unmarshal Sample.Decrypt
             Sample.config 10
             (bytes_of_string "byte" ++ bytes_of_string "encr" ++ [1; 2; 3])).
    left. reflexivity.
  - apply (ignored_messages_are_counted Sample.json_Unmarshal Sample.Decrypt
             Sample.config 10 (make 24)).
    right. left. reflexivity.
  - apply (ignored_messages_are_counted Sample.json_Unmarshal Sample.Decrypt
             Sample.config 10 (Sample.generated 1 3)).
    right. right. exists 1, 3. repeat split; try reflexivity; discriminate.
Defined.

(** A job of four in which the message numbered 2 is lost and the one
    numbered 1 comes twice: the metric is published. *)
Lemma completion_counts_deliveries_witness :
  Sample.run
    [(10, Sample.generated 0 4); (11, Sample.generated 1 4);
     (12, Sample.generated 1 4); (13, Sample.generated 3 4)] 9
  = [[]; []; []; [received Sample.config 13 4]].
Proof.
  apply (completion_counts_deliveries Sample.json_Unmarshal Sample.Decrypt
           Sample.config 4 (10, Sample.generated 0 4) (13, Sample.generated 3 4)
           [(11, Sample.generated 1 4); (12, Sample.generated 1 4)] 9).
  - lia.
  - reflexivity.
  - reflexivity.
  - repeat constructor.
  - reflexivity.
  - reflexivity.
Defined.

(** The first two messages of a job of five, then a whole job of three. *)
Lemma new_job_completes_after_any_deliveries_witness :
  Sample.run
    ([(1, Sample.generated 0 5); (2, Sample.generated 1 5)]
     ++ [(10, Sample.generated 0 3); (11, Sample.generated 1 3);
         (12, Sample.generated 2 3)]) 0
  = Sample.run [(1, Sample.generated 0 5); (2, Sample.generated 1 5)] 0
    ++ [[]; [];
        [("go-nats-go.metric"%string,
          {| metric.Job := "received"; metric.Time := 12;
             metric.Count := 3 |})]].
Proof.
  apply (new_job_completes_after_any_deliveries Sample.json_Unmarshal
           Sample.Decrypt Sample.config 3
           [(1, Sample.generated 0 5); (2, Sample.generated 1 5)]
           [(10, Sample.generated 0 3); (11, Sample.generated 1 3);
            (12, Sample.generated 2 3)] 0).
  - lia.
  - reflexivity.
  - reflexivity.
  - repeat constructor.
Defined.

(** The eight header bytes alone, as the encryption wrapper returns them
    when [Encrypt] fails, framed as a plain byte message. *)
Lemma short_byte_payload_panics_witness :
  Sample.handler 10 (bytes_of_string "byte" ++ bytes_of_string "byte") 7
  = (Panics, 8, []).
Proof.
  apply (short_byte_payload_panics Sample.json_Unmarshal Sample.Decrypt
           Sample.config (bytes_of_string "byte" ++ bytes_of_string "byte")
           (bytes_of_string "byte") (bytes_of_string "byte")).
  - cbn. lia.
  - reflexivity.
  - reflexivity.
  - reflexivity.
  - reflexivity.
Defined.

End HandlerEvaluation.

(** * Further properties of the start-up and of the publish loop *)

Section MasterProperties.

Context {D : Type}.
Variable json_Marshal : structMessage.t D -> list byte.
Variable Encrypt : list byte -> string -> option (list byte).
Variable GetConf : string -> option configuration.t.
Variable ReadFile : string -> option (list byte).
Variable myStruct : D.

Local Abbreviation readConfig := (readConfig GetConf).
Local Abbreviation selectScenario :=
  (selectScenario json_Marshal Encrypt ReadFile myStruct).
Local Abbreviation main := (main json_Marshal Encrypt GetConf ReadFile myStruct).
Local Abbreviation masterPublishes :=
  (masterPublishes json_Marshal Encrypt GetConf ReadFile myStruct).

(** X12. A configuration that [readConfig] accepts has a key of 32
    bytes, a subject and a server URL that are not empty (the defaults
    "speedtestnats" and [nats.DefaultURL] replace empty ones, and only
    those), and every other field as it was loaded. *)
Theorem readConfig_fills_defaults (fileName : string)
    (loaded config : configuration.t) :
  GetConf fileName = Some loaded ->
  readConfig fileName = inl config ->
  String.length (configuration.AESEncryptionKey config) = 32%nat /\
  configuration.Subject config
  = (if String.eqb (configuration.Subject loaded) ""
     then "speedtestnats"%string else configuration.Subject loaded) /\
  configuration.NATSServerURL config
  = (if String.eqb (configuration.NATSServerURL loaded) ""
     then nats_DefaultURL else configuration.NATSServerURL loaded) /\
  configuration.Subject config <> ""%string /\
  configuration.NATSServerURL config <> ""%string /\
  configuration.Total config = configuration.Total loaded /\
  configuration.Timeout config = configuration.Timeout loaded /\
  configuration.Scenario config = configuration.Scenario loaded /\
  configuration.AESEncryptionKey config = configuration.AESEncryptionKey loaded /\
  configuration.NumBytes config = configuration.NumBytes loaded /\
  configuration.Filename config = configuration.Filename loaded.
Proof.
  intros Hconf. unfold readConfig. rewrite Hconf.
  destruct (Nat.eqb_spec (String.length (configuration.AESEncryptionKey loaded)) 32)
    as [Hkey | Hkey]; cbn [negb]; [| discriminate].
  intros H. injection H as <-.
  destruct loaded as [subject total url timeout scenario key numBytes filename].
  cbn in Hkey |- *.
  destruct (String.eqb_spec subject ""); subst; cbn;
    destruct (String.eqb_spec url ""); subst; cbn;
    repeat split; try assumption; try discriminate.
Qed.

Lemma readConfig_error_iff (fileName : string) :
  (exists err, readConfig fileName = inr err) <->
  GetConf fileName = None
  \/ (exists loaded,
        GetConf fileName = Some loaded /\
        String.length (configuration.AESEncryptionKey loaded) <> 32%nat).
Proof.
  unfold readConfig. destruct (GetConf fileName) as [loaded |].
  - destruct (Nat.eqb_spec (String.length (configuration.AESEncryptionKey loaded)) 32)
      as [Hkey | Hkey]; cbn [negb]; split.
    + intros [err Herr]. discriminate.
    + intros [H | (l & Hl & Hne)]; [discriminate |].
      injection Hl as <-. contradiction.
    + intros _. right. now exists loaded.
    + intros _. now eexists.
  - split; [now left | intros _; now eexists].
Qed.

Lemma selectScenario_none_iff (config : configuration.t) :
  selectScenario config = None <->
  (configuration.Scenario config = "file"%string
   \/ configuration.Scenario config = "file.encrypted"%string)
  /\ ReadFile (configuration.Filename config) = None.
Proof.
  unfold selectScenario. cbv zeta.
  destruct (String.eqb_spec (configuration.Scenario config) "json") as [E | _];
    [rewrite E; split; [discriminate | intros [[H | H] _]; discriminate] |].
  destruct (String.eqb_spec (configuration.Scenario config) "json.encrypted")
    as [E | _];
    [rewrite E; split; [discriminate | intros [[H | H] _]; discriminate] |].
  destruct (String.eqb_spec (configuration.Scenario config) "emptybytes")
    as [E | _];
    [rewrite E; split; [discriminate | intros [[H | H] _]; discriminate] |].
  destruct (String.eqb_spec (configuration.Scenario config) "file") as [E | N1].
  { destruct (ReadFile (configuration.Filename config)); split;
      try discriminate; try (intros [_ H]; discriminate); intros _; auto. }
  destruct (String.eqb_spec (configuration.Scenario config) "file.encrypted")
    as [E | N2].
  { destruct (ReadFile (configuration.Filename config)); split;
      try discriminate; try (intros [_ H]; discriminate); intros _; auto. }
  split; [discriminate | intros [[H | H] _]; contradiction].
Qed.

(** X13. [main] returns before the services are set up, in either role,
    exactly in three cases: the configuration cannot be loaded, its key is
    not 32 bytes long, or the scenario is "file" or "file.encrypted" and
    the file cannot be read.  An unknown scenario is not one of them. *)
Theorem main_returns_early_iff (configFile : string) (slave : bool) :
  (exists err, main configFile slave = Exited err) <->
  GetConf configFile = None
  \/ (exists loaded,
        GetConf configFile = Some loaded /\
        String.length (configuration.AESEncryptionKey loaded) <> 32%nat)
  \/ (exists config,
        readConfig configFile = inl config /\
        (configuration.Scenario config = "file"%string
         \/ configuration.Scenario config = "file.encrypted"%string) /\
        ReadFile (configuration.Filename config) = None).
Proof.
  pose proof (readConfig_error_iff configFile) as Herr.
  unfold main.
  destruct (readConfig configFile) as [config | err] eqn:Hread.
  - pose proof (selectScenario_none_iff config) as Hsel.
    destruct (selectScenario config) as [gen |]; split.
    + intros [e He]. destruct slave; discriminate.
    + intros [H | [H | (c & Hc & Hs & Hf)]].
      * assert (Hex : exists e, @inl _ error config = inr e)
          by (apply Herr; now left).
        destruct Hex as [e He]. discriminate.
      * assert (Hex : exists e, @inl _ error config = inr e)
          by (apply Herr; now right).
        destruct Hex as [e He]. discriminate.
      * injection Hc as ->.
        assert (Hnone : Some gen = None) by (apply Hsel; now split).
        discriminate.
    + intros _. right. right. exists config.
      destruct (proj1 Hsel eq_refl) as [Hs Hf]. now repeat split.
    + intros _. now eexists.
  - split.
    + intros _.
      destruct (proj1 Herr (ex_intro _ err eq_refl)) as [H | H]; auto.
    + intros _. now eexists.
Qed.

(** The loop from [count], the generator panicking on the call for [k]. *)
Lemma publishLoop_stops (generateMessage : rawMessageGenerator)
    (subject : string) (Total : uint64) (g : uint64 -> rawMessage) (k : uint64) :
  k < Total < 2 ^ 64 ->
  (forall c, 0 <= c < k -> generateMessage c Total = Some (g c)) ->
  generateMessage k Total = None ->
  forall (n fuel : nat) (count : uint64),
    0 <= count -> count + Z.of_nat n = k -> (n < fuel)%nat ->
    publishLoop fuel generateMessage subject Total count
    = Some (flat_map (turn subject Total g) (countsFrom count n)
            ++ [Generated k Total], Panics).
Proof.
  intros Hk Hgen Hpanic.
  induction n as [| n IH]; intros fuel count Hc Hn Hfuel;
    (destruct fuel as [| fuel]; [lia |]); cbn [publishLoop].
  - replace count with k by lia.
    replace (k <? Total) with true by (symmetry; apply Z.ltb_lt; lia).
    now rewrite Hpanic.
  - replace (count <? Total) with true by (symmetry; apply Z.ltb_lt; lia).
    rewrite Hgen by lia.
    unfold wrap64. rewrite Z.mod_small by lia.
    rewrite (IH fuel (count + 1)) by lia.
    reflexivity.
Qed.

(** X14. The publish loop ends at the first call on which the generator
    panics: the calls before it have each been followed by a publication,
    the call that panics is the last event, and nothing more is generated
    or published. *)
Theorem publish_loop_stops_at_first_panic
    (generateMessage : rawMessageGenerator) (subject : string)
    (Total k : uint64) (g : uint64 -> rawMessage) (fuel : nat) :
  0 <= k < Total -> Total < 2 ^ 64 ->
  (forall c, 0 <= c < k -> generateMessage c Total = Some (g c)) ->
  generateMessage k Total = None ->
  (Z.to_nat k < fuel)%nat ->
  publishLoop fuel generateMessage subject Total 0
  = Some (flat_map (turn subject Total g) (upto k) ++ [Generated k Total],
          Panics).
Proof.
  intros Hk HT Hgen Hpanic Hfuel.
  apply (publishLoop_stops generateMessage subject Total g k); try assumption; lia.
Qed.

Lemma selectScenario_unknown (config : configuration.t) :
  configuration.Scenario config <> "json"%string ->
  configuration.Scenario config <> "json.encrypted"%string ->
  configuration.Scenario config <> "emptybytes"%string ->
  configuration.Scenario config <> "file"%string ->
  configuration.Scenario config <> "file.encrypted"%string ->
  selectScenario config = Some nilGenerator.
Proof.
  intros H1 H2 H3 H4 H5. unfold selectScenario. cbv zeta.
  repeat match goal with
         | |- context [String.eqb ?a ?b] =>
             destruct (String.eqb_spec a b); [contradiction |]
         end.
  reflexivity.
Qed.

(** X15. A scenario that is none of the five is not refused at start-up:
    [main] goes on with the nil generator.  The slave is set up as usual;
    the master, for [Total >= 1], panics on the first call of the
    generator, having published nothing. *)
Theorem unknown_scenario_panics_on_first_call (configFile : string)
    (config : configuration.t) (fuel : nat) :
  readConfig configFile = inl config ->
  configuration.Scenario config <> "json"%string ->
  configuration.Scenario config <> "json.encrypted"%string ->
  configuration.Scenario config <> "emptybytes"%string ->
  configuration.Scenario config <> "file"%string ->
  configuration.Scenario config <> "file.encrypted"%string ->
  1 <= configuration.Total config ->
  main configFile true = Slave config /\
  main configFile false = Master config nilGenerator /\
  masterPublishes (S fuel) configFile
  = Some ([Generated 0 (configuration.Total config)], Panics).
Proof.
  intros Hread H1 H2 H3 H4 H5 HT.
  assert (Hmain : forall slave,
             main configFile slave
             = if slave then Slave config else Master config nilGenerator).
  { intros slave. unfold main.
    now rewrite Hread, (selectScenario_unknown config H1 H2 H3 H4 H5). }
  split; [exact (Hmain true) |]. split; [exact (Hmain false) |].
  unfold masterPublishes. rewrite (Hmain false). cbn [publishLoop].
  replace (0 <? configuration.Total config) with true
    by (symmetry; apply Z.ltb_lt; lia).
  reflexivity.
Qed.

(** X16. With a byte scenario ("emptybytes", or "file" or
    "file.encrypted" on a file that can be read) and [Total] from [2^56]
    on, the master panics on the first call of the generator, [total] not
    fitting the eight bytes kept for it: nothing is published. *)
Theorem byte_scenario_panics_from_2_56 (configFile : string)
    (config : configuration.t) (fuel : nat) :
  readConfig configFile = inl config ->
  configuration.Scenario config = "emptybytes"%string
  \/ ((configuration.Scenario config = "file"%string
       \/ configuration.Scenario config = "file.encrypted"%string)
      /\ ReadFile (configuration.Filename config) <> None) ->
  2 ^ 56 <= configuration.Total config ->
  masterPublishes (S fuel) configFile
  = Some ([Generated 0 (configuration.Total config)], Panics).
Proof.
  intros Hread Hscenario HT.
  assert (Hgen : exists gen,
             selectScenario config = Some gen /\
             gen 0 (configuration.Total config) = None).
  { unfold selectScenario. cbv zeta.
    destruct Hscenario as [E | [[E | E] Hfile]]; rewrite E; cbn [String.eqb Ascii.eqb Bool.eqb].
    - eexists. split; [reflexivity |].
      unfold rawMessageFunc.
      now rewrite GeneratorFacts.byteMessageFunc_panics by (right; exact HT).
    - destruct (ReadFile (configuration.Filename config)) as [data |];
        [| contradiction].
      eexists. split; [reflexivity |].
      unfold rawMessageFunc.
      now rewrite GeneratorFacts.byteMessageFunc_panics by (right; exact HT).
    - destruct (ReadFile (configuration.Filename config)) as [data |];
        [| contradiction].
      eexists. split; [reflexivity |].
      unfold rawMessageFunc, encryptedMessageFunc.
      now rewrite GeneratorFacts.byteMessageFunc_panics by (right; exact HT). }
  destruct Hgen as (gen & Hsel & Hpanic).
  unfold masterPublishes, main. rewrite Hread, Hsel. cbn [publishLoop].
  replace (0 <? configuration.Total config) with true
    by (symmetry; apply Z.ltb_lt; lia).
  now rewrite Hpanic.
Qed.

End MasterProperties.

(** * Master and slave together *)

Section EndToEnd.
Import GeneratorFacts.

Context {D : Type}.
Variable json_Marshal : structMessage.t D -> list byte.
Variable json_Unmarshal : list byte -> option (structMessage.t D).
Variable Encrypt : list byte -> string -> option (list byte).
Variable Decrypt : list byte -> string -> option (list byte).
Variable GetConf : string -> option configuration.t.
Variable ReadFile : string -> option (list byte).
Variable myStruct : D.

Local Abbreviation readConfig := (readConfig GetConf).
Local Abbreviation selectScenario :=
  (selectScenario json_Marshal Encrypt ReadFile myStruct).
Local Abbreviation main := (main json_Marshal Encrypt GetConf ReadFile myStruct).
Local Abbreviation masterPublishes :=
  (masterPublishes json_Marshal Encrypt GetConf ReadFile myStruct).
Local Abbreviation receive := (receive json_Unmarshal Decrypt).
Local Abbreviation run := (run json_Unmarshal Decrypt).
Local Abbreviation deliveredTotal := (deliveredTotal json_Unmarshal Decrypt).
Local Abbreviation deliveredCount := (deliveredCount json_Unmarshal Decrypt).

Lemma publishedMessages_turns (subject : string) (Total : uint64)
    (g : uint64 -> rawMessage) (cs : list uint64) :
  publishedMessages (flat_map (turn subject Total g) cs) = map g cs.
Proof.
  induction cs as [| c cs IH]; [reflexivity |].
  cbn [flat_map turn app publishedMessages map]. now rewrite IH.
Qed.

Lemma map_snd_combine {A B : Type} (l : list A) :
  forall l' : list B, length l = length l' -> map snd (combine l l') = l'.
Proof.
  induction l as [| a l IH]; intros [| b l'] H; try discriminate; [reflexivity |].
  cbn [combine map snd]. f_equal. apply IH. now injection H.
Qed.

Lemma last_combine {A B : Type} (da : A) (db : B) (l : list A) :
  forall l' : list B, length l = length l' ->
    fst (last (combine l l') (da, db)) = last l da.
Proof.
  induction l as [| a l IH]; intros [| b l'] H; try discriminate; [reflexivity |].
  destruct l as [| a' l]; destruct l' as [| b' l']; try discriminate;
    [reflexivity |].
  change (combine (a :: a' :: l) (b :: b' :: l'))
    with ((a, b) :: combine (a' :: l) (b' :: l')).
  change (last (a :: a' :: l) da) with (last (a' :: l) da).
  rewrite <- (IH (b' :: l')) by (cbn [length] in H |- *; lia).
  reflexivity.
Qed.

(** What the handler reads in a framed message. *)
Lemma receive_framed (config : configuration.t) (ty fmt body : list byte) :
  length ty = 4%nat -> length fmt = 4%nat ->
  receive config (ty ++ fmt ++ body)
  = bind (if bytes_eqb fmt (bytes_of_string "encr")
          then or_return (Decrypt body (configuration.AESEncryptionKey config))
          else Next body)
      (fun msgBytes =>
         if bytes_eqb ty (bytes_of_string "byte")
         then Next (IsByteMessage msgBytes)
         else if bytes_eqb ty (bytes_of_string "json")
              then bind (or_return (json_Unmarshal msgBytes))
                     (fun tmpStruct => Next (IsStructMessage tmpStruct))
              else Next (IsByteMessage msgBytes)).
Proof.
  intros Hty Hfmt.
  assert (Hm : raw.message (ty ++ fmt ++ body) = Some body).
  { unfold raw.message.
    replace (ty ++ fmt ++ body) with ((ty ++ fmt) ++ body)
      by (rewrite <- app_assoc; reflexivity).
    apply slice_from_app. rewrite length_app. lia. }
  assert (Hf : raw.format (ty ++ fmt ++ body) = Some fmt)
    by (unfold raw.format; apply slice_app; lia).
  assert (Ht : raw.messageType (ty ++ fmt ++ body) = Some ty).
  { unfold raw.messageType, slice_to.
    apply (slice_app [] ty (fmt ++ body)); cbn [length]; lia. }
  unfold receive, decryptBody, decodeBody. rewrite Hm, Hf, Ht. cbn [call bind].
  destruct (bytes_eqb fmt (bytes_of_string "encr")); [reflexivity |].
  destruct (bytes_eqb fmt (bytes_of_string "byte")); reflexivity.
Qed.

Lemma countsFrom_range (n : nat) :
  forall k c, In c (countsFrom k n) -> k <= c < k + Z.of_nat n.
Proof.
  induction n as [| n IH]; intros k c Hin; [contradiction |].
  cbn [countsFrom] in Hin. destruct Hin as [<- | Hin]; [lia |].
  apply IH in Hin. lia.
Qed.

(** One job from the loop of the master to the handler of the slave, for a
    generator whose messages the handler reads back. *)
Lemma job_round (config : configuration.t)
    (generateMessage : rawMessageGenerator) (subject : string)
    (Total : uint64) (ts : list Z) (rc : uint64) (fuel : nat) :
  1 <= Total < 2 ^ 64 ->
  (forall c, 0 <= c < Total ->
     exists msg,
       generateMessage c Total = Some msg /\
       deliveredCount config msg = Some c /\
       deliveredTotal config msg = Some Total) ->
  length ts = Z.to_nat Total -> (Z.to_nat Total < fuel)%nat ->
  exists evs,
    publishLoop fuel generateMessage subject Total 0 = Some (evs, Normal) /\
    length (publishedMessages evs) = Z.to_nat Total /\
    run config (combine ts (publishedMessages evs)) rc
    = repeat [] (Z.to_nat Total - 1)
      ++ [[received config (last ts 0) Total]].
Proof.
  intros HT Hread Hts Hfuel.
  set (g := fun c => match generateMessage c Total with
                     | Some msg => msg
                     | None => []
                     end).
  assert (Hg : forall c, 0 <= c < Total ->
             generateMessage c Total = Some (g c) /\
             deliveredCount config (g c) = Some c /\
             deliveredTotal config (g c) = Some Total).
  { intros c Hc. destruct (Hread c Hc) as (msg & Hgen & Hcount & Htotal).
    unfold g. rewrite Hgen. auto. }
  exists (flat_map (turn subject Total g) (upto Total)).
  split.
  { apply publishLoop_turns; try lia. intros c Hc. now apply Hg. }
  rewrite publishedMessages_turns.
  assert (Hlen : length (map g (upto Total)) = Z.to_nat Total)
    by (unfold upto; now rewrite length_map, countsFrom_length).
  split; [exact Hlen |].
  assert (Hcomb : length (combine ts (map g (upto Total))) = Z.to_nat Total)
    by (rewrite length_combine, Hts, Hlen; apply Nat.min_id).
  assert (Heq : length ts = length (map g (upto Total)))
    by (rewrite Hlen; exact Hts).
  rewrite <- (last_combine 0 (@nil byte) ts (map g (upto Total)) Heq).
  rewrite <- Hcomb.
  apply (run_in_order json_Unmarshal Decrypt config Total _ 0 rc); try lia.
  - intros Hnil. rewrite Hnil in Hcomb. cbn in Hcomb. lia.
  - transitivity (0 + Z.of_nat (Z.to_nat Total)); [| lia].
    do 2 f_equal. exact Hcomb.
  - rewrite (map_snd_combine ts _ Heq).
    transitivity (map Some (upto Total));
      [| unfold upto; do 2 f_equal; symmetry; exact Hcomb].
    unfold upto. rewrite !map_map.
    apply map_ext_in. intros c Hc. apply countsFrom_range in Hc.
    apply Hg. lia.
  - apply Forall_forall. intros [t msg] Hin. cbn [snd].
    apply in_combine_r in Hin. apply in_map_iff in Hin as (c & <- & Hc).
    apply countsFrom_range in Hc. apply Hg. lia.
Qed.

(** The messages of the plain byte generator, as the handler reads them. *)
Lemma plain_byte_read_back (config : configuration.t) (data : list byte)
    (c t : uint64) :
  0 <= c < 2 ^ 56 -> 0 <= t < 2 ^ 56 ->
  exists msg,
    rawMessageFunc (bytes_of_string "byte") (bytes_of_string "byte")
      (byteMessageFunc data) c t = Some msg /\
    deliveredCount config msg = Some c /\
    deliveredTotal config msg = Some t.
Proof.
  intros Hc Ht.
  destruct (byteMessageFunc_round_trip data c t Hc Ht)
    as (inner & payload & Hgen & Hlen & Hskip & _ & Hcount & Htotal & _).
  exists (bytes_of_string "byte" ++ bytes_of_string "byte" ++ payload).
  split.
  { rewrite (rawMessageFunc_layout (bytes_of_string "byte")
               (bytes_of_string "byte") _ _ _ inner eq_refl eq_refl Hgen) by lia.
    now rewrite Hskip. }
  unfold deliveredCount, deliveredTotal.
  rewrite receive_framed by reflexivity.
  replace (bytes_eqb (bytes_of_string "byte") (bytes_of_string "encr"))
    with false by reflexivity.
  replace (bytes_eqb (bytes_of_string "byte") (bytes_of_string "byte"))
    with true by reflexivity.
  cbn [bind count total]. auto.
Qed.

(** The same under encryption, when [Decrypt] undoes [Encrypt]. *)
Lemma encrypted_byte_read_back (config : configuration.t) (data : list byte)
    (c t : uint64) :
  (forall b, exists e,
     Encrypt b (configuration.AESEncryptionKey config) = Some e /\
     Decrypt e (configuration.AESEncryptionKey config) = Some b) ->
  0 <= c < 2 ^ 56 -> 0 <= t < 2 ^ 56 ->
  exists msg,
    rawMessageFunc (bytes_of_string "byte") (bytes_of_string "encr")
      (encryptedMessageFunc Encrypt (byteMessageFunc data)
         (configuration.AESEncryptionKey config)) c t = Some msg /\
    deliveredCount config msg = Some c /\
    deliveredTotal config msg = Some t.
Proof.
  intros Hcrypt Hc Ht.
  destruct (byteMessageFunc_round_trip data c t Hc Ht)
    as (inner & payload & Hgen & Hlen & Hskip & _ & Hcount & Htotal & _).
  destruct (Hcrypt payload) as (e & Henc & Hdec).
  exists (bytes_of_string "byte" ++ bytes_of_string "encr" ++ e).
  split.
  { assert (Hinner : encryptedMessageFunc Encrypt (byteMessageFunc data)
                       (configuration.AESEncryptionKey config) c t
                     = Some (make 8 ++ e)).
    { rewrite (GeneratorProperties.encryptedMessageFunc_layout Encrypt _ _ _ _
                 inner Hgen) by lia.
      now rewrite Hskip, Henc. }
    rewrite (rawMessageFunc_layout (bytes_of_string "byte")
               (bytes_of_string "encr") _ _ _ (make 8 ++ e) eq_refl eq_refl
               Hinner)
      by (rewrite length_app; cbn; lia).
    reflexivity. }
  unfold deliveredCount, deliveredTotal.
  rewrite receive_framed by reflexivity.
  replace (bytes_eqb (bytes_of_string "encr") (bytes_of_string "encr"))
    with true by reflexivity.
  rewrite Hdec.
  replace (bytes_eqb (bytes_of_string "byte") (bytes_of_string "byte"))
    with true by reflexivity.
  cbn [or_return bind count total]. auto.
Qed.

(** The messages of the struct generator, plain and encrypted, when
    [Unmarshal] reads back what [Marshal] wrote. *)
Lemma json_read_back (config : configuration.t) (v : D) (c t : uint64) :
  (forall m, json_Unmarshal (json_Marshal m) = Some m) ->
  exists msg,
    rawMessageFunc (bytes_of_string "json") (bytes_of_string "byte")
      (structMessageFunc json_Marshal v) c t = Some msg /\
    deliveredCount config msg = Some c /\
    deliveredTotal config msg = Some t.
Proof.
  intros Hjson.
  set (body := json_Marshal (structMessage.mk c t v)).
  exists (bytes_of_string "json" ++ bytes_of_string "byte" ++ body).
  split.
  { rewrite (rawMessageFunc_layout (bytes_of_string "json")
               (bytes_of_string "byte") _ _ _ (make 8 ++ body) eq_refl eq_refl
               (GeneratorProperties.structMessageFunc_layout json_Marshal v c t))
      by (rewrite length_app; cbn; lia).
    reflexivity. }
  unfold deliveredCount, deliveredTotal.
  rewrite receive_framed by reflexivity.
  replace (bytes_eqb (bytes_of_string "byte") (bytes_of_string "encr"))
    with false by reflexivity.
  replace (bytes_eqb (bytes_of_string "json") (bytes_of_string "byte"))
    with false by reflexivity.
  replace (bytes_eqb (bytes_of_string "json") (bytes_of_string "json"))
    with true by reflexivity.
  cbn [bind]. unfold body. rewrite Hjson. cbn [or_return bind count total].
  auto.
Qed.

Lemma encrypted_json_read_back (config : configuration.t) (v : D)
    (c t : uint64) :
  (forall m, json_Unmarshal (json_Marshal m) = Some m) ->
  (forall b, exists e,
     Encrypt b (configuration.AESEncryptionKey config) = Some e /\
     Decrypt e (configuration.AESEncryptionKey config) = Some b) ->
  exists msg,
    rawMessageFunc (bytes_of_string "json") (bytes_of_string "encr")
      (encryptedMessageFunc Encrypt (structMessageFunc json_Marshal v)
         (configuration.AESEncryptionKey config)) c t = Some msg /\
    deliveredCount config msg = Some c /\
    deliveredTotal config msg = Some t.
Proof.
  intros Hjson Hcrypt.
  set (body := json_Marshal (structMessage.mk c t v)).
  destruct (Hcrypt body) as (e & Henc & Hdec).
  exists (bytes_of_string "json" ++ bytes_of_string "encr" ++ e).
  split.
  { assert (Hinner : encryptedMessageFunc Encrypt
                       (structMessageFunc json_Marshal v)
                       (configuration.AESEncryptionKey config) c t
                     = Some (make 8 ++ e)).
    { rewrite (GeneratorProperties.encryptedMessageFunc_layout Encrypt _ _ _ _
                 (make 8 ++ body)
                 (GeneratorProperties.structMessageFunc_layout json_Marshal v c t))
        by (rewrite length_app; cbn; lia).
      change (skipn 8 (make 8 ++ body)) with body. now rewrite Henc. }
    rewrite (rawMessageFunc_layout (bytes_of_string "json")
               (bytes_of_string "encr") _ _ _ (make 8 ++ e) eq_refl eq_refl
               Hinner)
      by (rewrite length_app; cbn; lia).
    reflexivity. }
  unfold deliveredCount, deliveredTotal.
  rewrite receive_framed by reflexivity.
  replace (bytes_eqb (bytes_of_string "encr") (bytes_of_string "encr"))
    with true by reflexivity.
  rewrite Hdec.
  replace (bytes_eqb (bytes_of_string "json") (bytes_of_string "byte"))
    with false by reflexivity.
  replace (bytes_eqb (bytes_of_string "json") (bytes_of_string "json"))
    with true by reflexivity.
  cbn [or_return bind]. unfold body. rewrite Hjson.
  cbn [or_return bind count total]. auto.
Qed.

(** [Sub] is the difference when the difference is a [Duration]. *)
Lemma Sub_in_range (t u : Z) :
  time.minDuration <= t - u <= time.maxDuration -> time.Sub t u = t - u.
Proof.
  unfold time.minDuration, time.maxDuration, time.Sub, time.wrapInt64.
  intros H. cbv zeta.
  rewrite (Z.mod_small (t - u + 2 ^ 63)) by lia.
  replace (u + (t - u + 2 ^ 63 - 2 ^ 63) =? t) with true
    by (symmetry; apply Z.eqb_eq; lia).
  lia.
Qed.

(** One job between a master and a slave started on the same
    configuration file, for a scenario whose messages the handler reads
    back. *)
Lemma scenario_round (configFile : string) (config : configuration.t)
    (generateMessage : rawMessageGenerator) (ts : list Z) (rc : uint64)
    (fuel : nat) (base : metric.t) :
  readConfig configFile = inl config ->
  selectScenario config = Some generateMessage ->
  1 <= configuration.Total config < 2 ^ 64 ->
  (forall c, 0 <= c < configuration.Total config ->
     exists msg,
       generateMessage c (configuration.Total config) = Some msg /\
       deliveredCount config msg = Some c /\
       deliveredTotal config msg = Some (configuration.Total config)) ->
  length ts = Z.to_nat (configuration.Total config) ->
  (Z.to_nat (configuration.Total config) < fuel)%nat ->
  main configFile true = Slave config /\
  exists evs,
    masterPublishes fuel configFile = Some (evs, Normal) /\
    length (publishedMessages evs) = Z.to_nat (configuration.Total config) /\
    run config (combine ts (publishedMessages evs)) rc
    = repeat [] (Z.to_nat (configuration.Total config) - 1)
      ++ [[((configuration.Subject config ++ ".metric")%string,
            {| metric.Job := "received";
               metric.Time := last ts 0;
               metric.Count := configuration.Total config |})]] /\
    metricHandler config base
      {| metric.Job := "received";
         metric.Time := last ts 0;
         metric.Count := configuration.Total config |}
    = Some (time.Sub (last ts 0) (metric.Time base)) /\
    (time.minDuration <= last ts 0 - metric.Time base <= time.maxDuration ->
     time.Sub (last ts 0) (metric.Time base) = last ts 0 - metric.Time base).
Proof.
  intros Hread Hsel HT Hback Hts Hfuel.
  split; [unfold main; now rewrite Hread, Hsel |].
  destruct (job_round config generateMessage
              (configuration.Subject config ++ ".data")
              (configuration.Total config) ts rc fuel HT Hback Hts Hfuel)
    as (evs & Hloop & Hlen & Hrun).
  exists evs. split; [| split; [exact Hlen | split; [exact Hrun | split]]].
  - unfold masterPublishes, main. now rewrite Hread, Hsel.
  - unfold metricHandler. cbn [metric.Job metric.Count metric.Time].
    now rewrite Z.eqb_refl.
  - apply Sub_in_range.
Qed.

(** X17. One job, end to end, in the plain byte scenarios ("emptybytes",
    or "file" on a file that can be read), master and slave started on the
    same configuration file with [1 <= Total < 2^56].  The master
    publishes [Total] messages and ends normally; the slave, whatever its
    counter, handed these messages in order, publishes nothing until the
    last one and then the one metric, [{"received", time, Total}] on the
    [.metric] subject; the master's [.metric] handler takes this metric as
    the awaited one, the duration being [m.Time.Sub(base.Time)], which is
    the time of the metric less the base time when that is a [Duration]
    and sticks at the ends of the [int64] range otherwise. *)
Theorem plain_byte_job_end_to_end (configFile : string)
    (config : configuration.t) (ts : list Z) (rc : uint64) (fuel : nat)
    (base : metric.t) :
  readConfig configFile = inl config ->
  configuration.Scenario config = "emptybytes"%string
  \/ (configuration.Scenario config = "file"%string
      /\ ReadFile (configuration.Filename config) <> None) ->
  1 <= configuration.Total config < 2 ^ 56 ->
  length ts = Z.to_nat (configuration.Total config) ->
  (Z.to_nat (configuration.Total config) < fuel)%nat ->
  main configFile true = Slave config /\
  exists evs,
    masterPublishes fuel configFile = Some (evs, Normal) /\
    length (publishedMessages evs) = Z.to_nat (configuration.Total config) /\
    run config (combine ts (publishedMessages evs)) rc
    = repeat [] (Z.to_nat (configuration.Total config) - 1)
      ++ [[((configuration.Subject config ++ ".metric")%string,
            {| metric.Job := "received";
               metric.Time := last ts 0;
               metric.Count := configuration.Total config |})]] /\
    metricHandler config base
      {| metric.Job := "received";
         metric.Time := last ts 0;
         metric.Count := configuration.Total config |}
    = Some (time.Sub (last ts 0) (metric.Time base)) /\
    (time.minDuration <= last ts 0 - metric.Time base <= time.maxDuration ->
     time.Sub (last ts 0) (metric.Time base) = last ts 0 - metric.Time base).
Proof.
  intros Hread Hscenario HT Hts Hfuel.
  assert (Hsel : exists data,
             selectScenario config
             = Some (rawMessageFunc (bytes_of_string "byte")
                       (bytes_of_string "byte") (byteMessageFunc data))).
  { unfold selectScenario. cbv zeta.
    destruct Hscenario as [E | [E Hfile]]; rewrite E;
      cbn [String.eqb Ascii.eqb Bool.eqb].
    - eexists. reflexivity.
    - destruct (ReadFile (configuration.Filename config)) as [data |];
        [| contradiction].
      eexists. reflexivity. }
  destruct Hsel as [data Hsel].
  apply (scenario_round configFile config _ ts rc fuel base Hread Hsel);
    try assumption; try lia.
  intros c Hc. apply plain_byte_read_back; lia.
Qed.

(** X18. One job, end to end, in the scenarios that rest on a
    collaborator ("json", "json.encrypted", and "file.encrypted" on a file
    that can be read), when [Unmarshal] reads back what [Marshal] wrote
    and [Decrypt] undoes [Encrypt] under the configured key: for
    [1 <= Total < 2^64], and [Total < 2^56] with "file.encrypted", the
    master publishes [Total] messages, the slave handed them in order
    publishes the one metric, [{"received", time, Total}] on the [.metric]
    subject, on the last, and the master takes it as the awaited one, the
    duration being [m.Time.Sub(base.Time)]. *)
Theorem collaborator_job_end_to_end (configFile : string)
    (config : configuration.t) (ts : list Z) (rc : uint64) (fuel : nat)
    (base : metric.t) :
  (forall m, json_Unmarshal (json_Marshal m) = Some m) ->
  (forall b, exists e,
     Encrypt b (configuration.AESEncryptionKey config) = Some e /\
     Decrypt e (configuration.AESEncryptionKey config) = Some b) ->
  readConfig configFile = inl config ->
  configuration.Scenario config = "json"%string
  \/ configuration.Scenario config = "json.encrypted"%string
  \/ (configuration.Scenario config = "file.encrypted"%string
      /\ ReadFile (configuration.Filename config) <> None
      /\ configuration.Total config < 2 ^ 56) ->
  1 <= configuration.Total config < 2 ^ 64 ->
  length ts = Z.to_nat (configuration.Total config) ->
  (Z.to_nat (configuration.Total config) < fuel)%nat ->
  main configFile true = Slave config /\
  exists evs,
    masterPublishes fuel configFile = Some (evs, Normal) /\
    length (publishedMessages evs) = Z.to_nat (configuration.Total config) /\
    run config (combine ts (publishedMessages evs)) rc
    = repeat [] (Z.to_nat (configuration.Total config) - 1)
      ++ [[((configuration.Subject config ++ ".metric")%string,
            {| metric.Job := "received";
               metric.Time := last ts 0;
               metric.Count := configuration.Total config |})]] /\
    metricHandler config base
      {| metric.Job := "received";
         metric.Time := last ts 0;
         metric.Count := configuration.Total config |}
    = Some (time.Sub (last ts 0) (metric.Time base)) /\
    (time.minDuration <= last ts 0 - metric.Time base <= time.maxDuration ->
     time.Sub (last ts 0) (metric.Time base) = last ts 0 - metric.Time base).
Proof.
  intros Hjson Hcrypt Hread Hscenario HT Hts Hfuel.
  destruct Hscenario as [E | [E | (E & Hfile & H56)]].
  - apply (scenario_round configFile config
             (rawMessageFunc (bytes_of_string "json") (bytes_of_string "byte")
                (structMessageFunc json_Marshal myStruct))
             ts rc fuel base Hread); try assumption.
    + unfold selectScenario. cbv zeta. now rewrite E.
    + intros c Hc. now apply json_read_back.
  - apply (scenario_round configFile config
             (rawMessageFunc (bytes_of_string "json") (bytes_of_string "encr")
                (encryptedMessageFunc Encrypt
                   (structMessageFunc json_Marshal myStruct)
                   (configuration.AESEncryptionKey config)))
             ts rc fuel base Hread); try assumption.
    + unfold selectScenario. cbv zeta. now rewrite E.
    + intros c Hc. now apply encrypted_json_read_back.
  - destruct (ReadFile (configuration.Filename config)) as [data |] eqn:Hdata;
      [| contradiction].
    apply (scenario_round configFile config
             (rawMessageFunc (bytes_of_string "byte") (bytes_of_string "encr")
                (encryptedMessageFunc Encrypt (byteMessageFunc data)
                   (configuration.AESEncryptionKey config)))
             ts rc fuel base Hread); try assumption.
    + unfold selectScenario. cbv zeta. now rewrite E, Hdata.
    + intros c Hc. apply encrypted_byte_read_back; try assumption; lia.
Qed.

End EndToEnd.

(** * pkg/easycrypt *)

Module EasycryptProperties.
Import GeneratorFacts.

Section Cipher.

Variables Block AEAD : Type.
Variable aes_NewCipher : list byte -> option Block.
Variable cipher_NewGCM : Block -> option AEAD.
Variable NonceSize : AEAD -> nat.
Variable seal : AEAD -> list byte -> list byte -> list byte.
Variable open : AEAD -> list byte -> list byte -> option (list byte).
Variable rand_Reader : nat -> option (list byte).

Local Abbreviation Encrypt :=
  (easycrypt.Encrypt Block AEAD aes_NewCipher cipher_NewGCM NonceSize seal
     rand_Reader).
Local Abbreviation Decrypt :=
  (easycrypt.Decrypt Block AEAD aes_NewCipher cipher_NewGCM NonceSize open).

Lemma copy_length (dst src : list byte) : length (copy dst src) = length dst.
Proof.
  unfold copy. rewrite length_app, length_firstn, length_skipn. lia.
Qed.

(** X19. [TestEncryptDecrypt] for all bytes and keys: over a cipher whose
    [Open] undoes [Seal] under a nonce of [NonceSize] bytes, what
    [Encrypt] returns without error, the nonce followed by the sealed
    bytes, is decrypted by [Decrypt] under the same key to the bytes that
    were encrypted, without error. *)
Theorem encrypt_decrypt_round_trip (bytes : list byte) (key : string)
    (encrypted : list byte) :
  (forall gcm nonce plaintext,
     length nonce = NonceSize gcm ->
     open gcm nonce (seal gcm nonce plaintext) = Some plaintext) ->
  Encrypt bytes key = Some (encrypted, None) ->
  Decrypt encrypted key = Some (bytes, None).
Proof.
  intros Hopen. unfold Encrypt, Decrypt.
  destruct (aes_NewCipher (bytes_of_string key)) as [c |]; [| discriminate].
  destruct (cipher_NewGCM c) as [gcm |]; [| discriminate].
  cbv zeta.
  destruct (rand_Reader (length (make (NonceSize gcm)))) as [random |];
    [| discriminate].
  intros H. injection H as <-.
  set (nonce := copy (make (NonceSize gcm)) random).
  assert (Hn : length nonce = NonceSize gcm).
  { unfold nonce. rewrite copy_length. unfold make. apply repeat_length. }
  replace (length (nonce ++ seal gcm nonce bytes) <? NonceSize gcm)%nat
    with false
    by (symmetry; apply Nat.ltb_ge; rewrite length_app; lia).
  unfold slice_to.
  rewrite (slice_app [] nonce (seal gcm nonce bytes))
    by (cbn [length]; lia).
  cbn [app]. rewrite (slice_from_app nonce) by lia.
  now rewrite Hopen.
Qed.

(** X20. [Decrypt] never panics and returns no bytes with an error: for
    every input and key it returns, with either the nil error or an empty
    slice; and under a key that the cipher accepts, an input shorter than
    the nonce is answered by the error
    "easycrypt: Nonce issue: len(bytes)(N) < nonceSize(M)", [N] the length
    of the input and [M] the size of the nonce, and not by slicing out of
    bounds. *)
Theorem decrypt_returns_error_not_panic (bytes : list byte) (key : string) :
  exists out err,
    Decrypt bytes key = Some (out, err) /\
    (err <> None -> out = []) /\
    (forall c gcm,
       aes_NewCipher (bytes_of_string key) = Some c ->
       cipher_NewGCM c = Some gcm ->
       (length bytes < NonceSize gcm)%nat ->
       err = Some ("easycrypt: Nonce issue: len(bytes)("
                   ++ NilEmpty.string_of_uint (Nat.to_uint (length bytes))
                   ++ ") < nonceSize("
                   ++ NilEmpty.string_of_uint (Nat.to_uint (NonceSize gcm))
                   ++ ")")%string).
Proof.
  unfold Decrypt.
  destruct (aes_NewCipher (bytes_of_string key)) as [c |] eqn:Hc;
    [| eexists; eexists; split; [reflexivity | split; [reflexivity | discriminate]]].
  destruct (cipher_NewGCM c) as [gcm |] eqn:Hg;
    [| eexists; eexists; split; [reflexivity |
         split; [reflexivity | intros c' g' Hc' Hg'; congruence]]].
  cbv zeta.
  destruct (Nat.ltb_spec (length bytes) (NonceSize gcm)) as [Hshort | Hlong].
  - eexists; eexists. split; [reflexivity |]. split; [reflexivity |].
    intros c' g' Hc' Hg' _. injection Hc' as <-.
    rewrite Hg in Hg'. injection Hg' as <-. reflexivity.
  - assert (Hsplit : bytes = [] ++ firstn (NonceSize gcm) bytes
                             ++ skipn (NonceSize gcm) bytes)
      by (symmetry; apply firstn_skipn).
    assert (Hto : slice_to bytes (NonceSize gcm)
                  = Some (firstn (NonceSize gcm) bytes)).
    { unfold slice_to. rewrite Hsplit at 1.
      apply slice_app; rewrite ?length_firstn; cbn [length]; lia. }
    assert (Hfrom : slice_from bytes (NonceSize gcm)
                    = Some (skipn (NonceSize gcm) bytes)).
    { rewrite <- (firstn_skipn (NonceSize gcm) bytes) at 1.
      apply slice_from_app. rewrite length_firstn. lia. }
    rewrite Hto, Hfrom.
    assert (Hlong' : forall c' g',
               Some c = Some c' -> cipher_NewGCM c' = Some g' ->
               ~ (length bytes < NonceSize g')%nat).
    { intros c' g' Hc' Hg'. injection Hc' as <-.
      rewrite Hg in Hg'. injection Hg' as <-. lia. }
    destruct (open gcm (firstn (NonceSize gcm) bytes)
                (skipn (NonceSize gcm) bytes)) as [plain |];
      eexists; eexists; (split; [reflexivity |]); split;
        try reflexivity; try (intros H; now contradiction H);
        intros c' g' Hc' Hg' Hlt; now destruct (Hlong' c' g' Hc' Hg').
Qed.

End Cipher.

(** The error of [Decrypt] on three bytes, under the key of the test and a
    nonce of 12 bytes. *)
Lemma short_input_error_text :
  easycrypt.Decrypt _ _ SampleCipher.NewCipher SampleCipher.NewGCM
    SampleCipher.NonceSize SampleCipher.open
    [1; 2; 3] "ThisIsMy32BytesKeyForTestingFine"
  = Some ([], Some "easycrypt: Nonce issue: len(bytes)(3) < nonceSize(12)"%string).
Proof. reflexivity. Qed.

(** The stand-in cipher under the key of the test. *)
Lemma encrypt_decrypt_round_trip_witness :
  easycrypt.Decrypt _ _ SampleCipher.NewCipher SampleCipher.NewGCM
    SampleCipher.NonceSize SampleCipher.open
    (repeat 7 12 ++ [3; 2; 1; 42]) "ThisIsMy32BytesKeyForTestingFine"
  = Some ([1; 2; 3], None).
Proof.
  apply (encrypt_decrypt_round_trip _ _ SampleCipher.NewCipher
           SampleCipher.NewGCM SampleCipher.NonceSize SampleCipher.seal
           SampleCipher.open SampleCipher.rand_Reader [1; 2; 3]
           "ThisIsMy32BytesKeyForTestingFine" (repeat 7 12 ++ [3; 2; 1; 42])).
  - intros gcm nonce plaintext _. unfold SampleCipher.open, SampleCipher.seal.
    now rewrite rev_app_distr, rev_involutive.
  - reflexivity.
Defined.

End EasycryptProperties.

(** * The counters of a byte message *)

Module CounterBounds.
Import binary.

Lemma lor_lt_pow2 (a b n : Z) :
  0 <= a < 2 ^ n -> 0 <= b < 2 ^ n -> 0 <= Z.lor a b < 2 ^ n.
Proof.
  intros Ha Hb. split; [apply Z.lor_nonneg; lia |].
  destruct (Z.eq_dec a 0) as [-> | Ha0]; [now rewrite Z.lor_0_l |].
  destruct (Z.eq_dec b 0) as [-> | Hb0]; [now rewrite Z.lor_0_r |].
  assert (Hn : 0 <= n).
  { destruct (Z_lt_le_dec n 0) as [Hneg | Hpos]; [| exact Hpos].
    rewrite Z.pow_neg_r in Ha by exact Hneg. lia. }
  assert (Hpos : 0 < Z.lor a b).
  { assert (0 <= Z.lor a b) by (apply Z.lor_nonneg; lia).
    assert (Z.lor a b <> 0) by (rewrite Z.lor_eq_0_iff; tauto). lia. }
  apply Z.log2_lt_pow2; [exact Hpos |].
  rewrite Z.log2_lor by lia.
  apply Z.max_lub_lt; apply Z.log2_lt_pow2; lia.
Qed.

Lemma shifted_byte_bound (b s : Z) :
  0 <= b < 128 -> 0 <= s -> s + 7 <= 64 ->
  0 <= wrap64 (Z.shiftl b s) < 2 ^ (s + 7).
Proof.
  intros Hb Hs Hle. rewrite Z.shiftl_mul_pow2 by lia.
  assert (Hp : 0 < 2 ^ s) by (apply Z.pow_pos_nonneg; lia).
  assert (Hb' : 0 <= b * 2 ^ s < 2 ^ (s + 7)).
  { rewrite Z.pow_add_r by lia. change (2 ^ 7) with 128. nia. }
  assert (Hmax : 2 ^ (s + 7) <= 2 ^ 64) by (apply Z.pow_le_mono_r; lia).
  rewrite VarintFacts.wrap64_small by lia. exact Hb'.
Qed.

Lemma Uvarint_from_bound (buf : list byte) :
  Forall (fun b => 0 <= b < 256) buf ->
  forall i x s, 0 <= s -> 0 <= x < 2 ^ s ->
    s + 7 * Z.of_nat (length buf) <= 64 ->
    0 <= fst (Uvarint_from buf i x s) < 2 ^ (s + 7 * Z.of_nat (length buf)).
Proof.
  induction 1 as [| b rest Hb _ IH]; intros i x s Hs Hx Hlen.
  - cbn. assert (0 < 2 ^ (s + 0)) by (apply Z.pow_pos_nonneg; lia). lia.
  - cbn [length] in Hlen.
    assert (Hmono : 2 ^ (s + 7) <= 2 ^ (s + 7 * Z.of_nat (length (b :: rest))))
      by (apply Z.pow_le_mono_r; cbn [length]; lia).
    assert (Hxs : 0 <= x < 2 ^ (s + 7)).
    { assert (2 ^ s <= 2 ^ (s + 7)) by (apply Z.pow_le_mono_r; lia). lia. }
    assert (Hzero : 0 <= 0 < 2 ^ (s + 7 * Z.of_nat (length (b :: rest)))).
    { assert (0 < 2 ^ (s + 7)) by (apply Z.pow_pos_nonneg; lia). lia. }
    cbn [Uvarint_from].
    destruct (i =? MaxVarintLen64); [exact Hzero |].
    destruct (Z.ltb_spec b 128) as [Hlow | Hhigh].
    + destruct ((i =? MaxVarintLen64 - 1) && (1 <? b)); [exact Hzero |].
      cbn [fst].
      pose proof (lor_lt_pow2 x (wrap64 (Z.shiftl b s)) (s + 7) Hxs
                    (shifted_byte_bound b s ltac:(lia) Hs ltac:(lia))).
      split; [apply H | eapply Z.lt_le_trans; [apply H | exact Hmono]].
    + assert (Hland : 0 <= Z.land b 127 < 128).
      { change 127 with (Z.ones 7). rewrite Z.land_ones by lia.
        apply Z.mod_pos_bound. lia. }
      assert (Hrec : 0 <= fst (Uvarint_from rest (i + 1)
                                 (Z.lor x (wrap64 (Z.shiftl (Z.land b 127) s)))
                                 (s + 7))
                     < 2 ^ (s + 7 + 7 * Z.of_nat (length rest))).
      { apply IH; try lia.
        apply lor_lt_pow2; [exact Hxs |].
        apply shifted_byte_bound; lia. }
      split; [apply Hrec |].
      eapply Z.lt_le_trans; [apply Hrec |].
      apply Z.pow_le_mono_r; cbn [length]; unfold byte in *; lia.
Qed.

Lemma Forall_slice (P : byte -> Prop) (s w : list byte) (lo hi : nat) :
  Forall P s -> slice s lo hi = Some w -> Forall P w /\ length w = (hi - lo)%nat.
Proof.
  intros Hs. unfold slice.
  destruct ((lo <=? hi)%nat && (hi <=? length s)%nat) eqn:E; [| discriminate].
  apply andb_true_iff in E as [Hlo Hhi].
  apply Nat.leb_le in Hlo, Hhi.
  intros H. injection H as <-. split.
  - rewrite <- (firstn_skipn lo s) in Hs. apply Forall_app in Hs as [_ Hs].
    rewrite <- (firstn_skipn (hi - lo) (skipn lo s)) in Hs.
    now apply Forall_app in Hs as [Hs _].
  - rewrite length_firstn, length_skipn. lia.
Qed.

(** X21. Whatever bytes a byte message is made of, the [count()] and the
    [total()] that are read from it are below [2^56]: eight bytes of a
    varint carry 56 bits, so no byte message announces a larger count or
    total. *)
Theorem byte_message_counters_below_2_56 (bytes : list byte) (v : uint64) :
  Forall (fun b => 0 <= b < 256) bytes ->
  byteMessage.count bytes = Some v \/ byteMessage.total bytes = Some v ->
  0 <= v < 2 ^ 56.
Proof.
  intros Hbytes Hv.
  assert (Hwindow : exists w,
             Forall (fun b => 0 <= b < 256) w /\ length w = 8%nat /\
             v = fst (Uvarint w)).
  { destruct Hv as [Hv | Hv];
      [unfold byteMessage.count, slice_to in Hv
      | unfold byteMessage.total in Hv].
    - destruct (slice bytes 0 8) as [w |] eqn:Hw; [| discriminate].
      injection Hv as <-. destruct (Forall_slice _ _ _ _ _ Hbytes Hw).
      now exists w.
    - destruct (slice bytes 8 16) as [w |] eqn:Hw; [| discriminate].
      injection Hv as <-. destruct (Forall_slice _ _ _ _ _ Hbytes Hw).
      now exists w. }
  destruct Hwindow as (w & Hw & Hlen & ->).
  unfold Uvarint.
  pose proof (Uvarint_from_bound w Hw 0 0 0) as Hbound.
  unfold byte in *. rewrite Hlen in Hbound. apply Hbound; cbn; lia.
Qed.

Lemma byte_message_counters_below_2_56_witness :
  0 <= 72057594037927935 < 2 ^ 56.
Proof.
  apply (byte_message_counters_below_2_56
           (make 8 ++ [255; 255; 255; 255; 255; 255; 255; 127])
           72057594037927935).
  - repeat constructor; cbn; lia.
  - right. reflexivity.
Defined.

End CounterBounds.

(** * The further properties of the master on sample inputs *)

Module MasterEvaluation.
Import Sample SampleCodec.

(** A file that names no subject and no server. *)
Lemma readConfig_fills_defaults_witness :
  String.length
    (configuration.AESEncryptionKey
       (configuration.mk "speedtestnats" 3 nats_DefaultURL 1000000000000
          "" "DontUseARealKey.ItHasToBe32Bytes" 2 "")) = 32%nat /\
  configuration.Subject
    (configuration.mk "speedtestnats" 3 nats_DefaultURL 1000000000000
       "" "DontUseARealKey.ItHasToBe32Bytes" 2 "")
  = "speedtestnats"%string.
Proof.
  destruct (readConfig_fills_defaults (fun _ => Some bareConfig) "config.json"
              bareConfig
              (configuration.mk "speedtestnats" 3 nats_DefaultURL 1000000000000
                 "" "DontUseARealKey.ItHasToBe32Bytes" 2 ""))
    as (Hkey & Hsubject & _).
  - reflexivity.
  - reflexivity.
  - split; [exact Hkey | exact Hsubject].
Defined.

(** A job of five with a generator that panics on the third call. *)
Lemma publish_loop_stops_at_first_panic_witness :
  publishLoop 3 failingGenerator "go-nats-go.data" 5 0
  = Some ([Generated 0 5; Published "go-nats-go.data" [0; 5];
           Generated 1 5; Published "go-nats-go.data" [1; 5];
           Generated 2 5], Panics).
Proof.
  apply (publish_loop_stops_at_first_panic failingGenerator "go-nats-go.data"
           5 2 (fun c => [c; 5]) 3).
  - lia.
  - lia.
  - intros c Hc. assert (Hcases : c = 0 \/ c = 1) by lia.
    destruct Hcases as [-> | ->]; reflexivity.
  - reflexivity.
  - cbn. lia.
Defined.

(** A file that names no scenario. *)
Lemma unknown_scenario_panics_on_first_call_witness :
  main json_Marshal Encrypt (fun _ => Some bareConfig) ReadFile tt
    "config.json" true
  = Slave (configuration.mk "speedtestnats" 3 nats_DefaultURL 1000000000000
             "" "DontUseARealKey.ItHasToBe32Bytes" 2 "") /\
  main json_Marshal Encrypt (fun _ => Some bareConfig) ReadFile tt
    "config.json" false
  = Master (configuration.mk "speedtestnats" 3 nats_DefaultURL 1000000000000
              "" "DontUseARealKey.ItHasToBe32Bytes" 2 "") nilGenerator /\
  masterPublishes json_Marshal Encrypt (fun _ => Some bareConfig) ReadFile tt
    1 "config.json"
  = Some ([Generated 0 3], Panics).
Proof.
  apply (unknown_scenario_panics_on_first_call json_Marshal Encrypt
           (fun _ => Some bareConfig) ReadFile tt "config.json"
           (configuration.mk "speedtestnats" 3 nats_DefaultURL 1000000000000
              "" "DontUseARealKey.ItHasToBe32Bytes" 2 "") 0);
    try reflexivity; try discriminate.
Defined.

(** The scenario "emptybytes" with [Total = 2^56]. *)
Lemma byte_scenario_panics_from_2_56_witness :
  masterPublishes json_Marshal Encrypt (fun _ => Some hugeTotalConfig)
    ReadFile tt 1 "config.json"
  = Some ([Generated 0 (2 ^ 56)], Panics).
Proof.
  apply (byte_scenario_panics_from_2_56 json_Marshal Encrypt
           (fun _ => Some hugeTotalConfig) ReadFile tt "config.json"
           hugeTotalConfig 0).
  - reflexivity.
  - left. reflexivity.
  - cbn. lia.
Defined.

End MasterEvaluation.

(** * One job, end to end, on sample inputs *)

Module EndToEndEvaluation.

(** The README configuration with [Total = 3], the slave's counter at 7,
    the deliveries at the times 10, 11 and 12, the base time 4. *)
Lemma plain_byte_job_end_to_end_witness :
  main Sample.json_Marshal Sample.Encrypt (fun _ => Some Sample.config)
    Sample.ReadFile tt "config.json" true = Slave Sample.config /\
  exists evs,
    masterPublishes Sample.json_Marshal Sample.Encrypt
      (fun _ => Some Sample.config) Sample.ReadFile tt 4 "config.json"
    = Some (evs, Normal) /\
    length (publishedMessages evs) = 3%nat /\
    run Sample.json_Unmarshal Sample.Decrypt Sample.config
      (combine [10; 11; 12] (publishedMessages evs)) 7
    = [[]; [];
       [("go-nats-go.metric"%string,
         {| metric.Job := "received"; metric.Time := 12;
            metric.Count := 3 |})]] /\
    metricHandler Sample.config (metric.mk "base" 4 3)
      {| metric.Job := "received"; metric.Time := 12; metric.Count := 3 |}
    = Some 8 /\
    (time.minDuration <= 12 - 4 <= time.maxDuration -> time.Sub 12 4 = 12 - 4).
Proof.
  apply (plain_byte_job_end_to_end Sample.json_Marshal Sample.json_Unmarshal
           Sample.Encrypt Sample.Decrypt (fun _ => Some Sample.config)
           Sample.ReadFile tt "config.json" Sample.config [10; 11; 12] 7 4
           (metric.mk "base" 4 3)).
  - reflexivity.
  - left. reflexivity.
  - cbn. lia.
  - reflexivity.
  - cbn. lia.
Defined.

(** The scenario "json.encrypted" with [Total = 2], over the JSON of two
    numbers and the encryption that reverses the bytes. *)
Lemma collaborator_job_end_to_end_witness :
  main SampleCodec.json_Marshal SampleCodec.EncryptAny
    (fun _ => Some SampleCodec.jsonConfig) Sample.ReadFile tt
    "config.json" true = Slave SampleCodec.jsonConfig /\
  exists evs,
    masterPublishes SampleCodec.json_Marshal SampleCodec.EncryptAny
      (fun _ => Some SampleCodec.jsonConfig) Sample.ReadFile tt 3 "config.json"
    = Some (evs, Normal) /\
    length (publishedMessages evs) = 2%nat /\
    run SampleCodec.json_Unmarshal Sample.DecryptAny SampleCodec.jsonConfig
      (combine [10; 11] (publishedMessages evs)) 7
    = [[];
       [("go-nats-go.metric"%string,
         {| metric.Job := "received"; metric.Time := 11;
            metric.Count := 2 |})]] /\
    metricHandler SampleCodec.jsonConfig (metric.mk "base" 4 2)
      {| metric.Job := "received"; metric.Time := 11; metric.Count := 2 |}
    = Some 7 /\
    (time.minDuration <= 11 - 4 <= time.maxDuration -> time.Sub 11 4 = 11 - 4).
Proof.
  apply (collaborator_job_end_to_end SampleCodec.json_Marshal
           SampleCodec.json_Unmarshal SampleCodec.EncryptAny Sample.DecryptAny
           (fun _ => Some SampleCodec.jsonConfig) Sample.ReadFile tt
           "config.json" SampleCodec.jsonConfig [10; 11] 7 3
           (metric.mk "base" 4 2)).
  - intros [c t []]. reflexivity.
  - intros b. exists (rev b). split; [reflexivity |].
    unfold Sample.DecryptAny. now rewrite rev_involutive.
  - reflexivity.
  - right. left. reflexivity.
  - cbn. lia.
  - reflexivity.
  - cbn. lia.
Defined.

End EndToEndEvaluation.
